(** * MLDataset: the sample-windowing adapter of PaddleTS

    A shallow embedding of
    [paddlets/models/forecasting/ml/adapter/ml_dataset.py] and the
    properties of its window resolution, validation and sample building.

    Python integers are [Z].  A pandas time index is a list of timestamps
    ([Z]); a two-dimensional numpy array is the list of its rows.  The cells
    of the arrays are never inspected by the adapter, so the development is
    parametric in their type. *)

From Stdlib Require Import ZArith List Bool Lia.
Import ListNotations.
Local Open Scope Z_scope.

Set Implicit Arguments.

(** ** Python sequence primitives *)

Module Py.
Section Seq.
Context {A : Type}.

(** [len(l)] *)
Definition len (l : list A) : Z := Z.of_nat (length l).

(** How a slice bound is normalised for a sequence of length [n] and a
    step of 1: a negative bound counts from the end, and every bound is
    clipped to [0 .. n]. *)
Definition clip (n i : Z) : Z :=
  if i <? 0 then Z.max 0 (i + n) else Z.min i n.

(** [l[start:stop]] *)
Definition slice (l : list A) (start stop : Z) : list A :=
  let n := len l in
  let lo := clip n start in
  let hi := clip n stop in
  firstn (Z.to_nat (hi - lo)) (skipn (Z.to_nat lo) l).

(** [l[start:]] *)
Definition slice_from (l : list A) (start : Z) : list A :=
  slice l start (len l).

(** [l[i]]: a negative index counts from the end; [None] stands for the
    [IndexError] of an index outside [-len(l) .. len(l) - 1]. *)
Definition getitem (l : list A) (i : Z) : option A :=
  let n := len l in
  if i <? 0
  then if i + n <? 0 then None else nth_error l (Z.to_nat (i + n))
  else nth_error l (Z.to_nat i).

End Seq.
End Py.

(** ** Exceptions and the result of a call *)

(** The [raise_if] sites of [__init__], named after the failure they report. *)
Inductive validation_error : Type :=
| NullDatasetError
| NullTargetError
| EmptyTargetError
| InvalidChunkLengthError
| InvalidStrideError
| TargetTooShortError
| WindowLowerBoundError
| WindowUpperBoundError
| KnownCovInsufficientError
| KnownCovTimestampTooEarlyError
| ObservedCovTimestampTooEarlyError.

Inductive exn : Type :=
| ValidationError (v : validation_error)
| IndexError
| KeyError
| AttributeError.

(** A call returns, raises, or is cut off by the bound put on the number
    of iterations of its loop. *)
Inductive result (A : Type) : Type :=
| Ok (a : A)
| Raise (e : exn)
| OutOfFuel.

Arguments Ok {A} a.
Arguments Raise {A} e.
Arguments OutOfFuel {A}.

Definition bind {A B : Type} (m : result A) (k : A -> result B) : result B :=
  match m with
  | Ok a => k a
  | Raise e => Raise e
  | OutOfFuel => OutOfFuel
  end.

Notation "x <- m ;; k" := (bind m (fun x => k))
  (at level 61, m at next level, right associativity).
Notation "' pat <- m ;; k" := (bind m (fun x => match x with pat => k end))
  (at level 61, pat pattern, m at next level, right associativity).
Notation "m ;;; k" := (bind m (fun _ => k))
  (at level 61, right associativity).

(** The call is not cut off by the bound on its loop. *)
Definition terminates {A : Type} (m : result A) : Prop := m <> OutOfFuel.

(** Every exception the call can raise satisfies [P]. *)
Definition raises_only {A : Type} (P : exn -> Prop) (m : result A) : Prop :=
  forall e, m = Raise e -> P e.

(** Modelled from the spec: [paddlets.logger.raise_if] is imported by the
    source file and not defined in it; it raises the given validation error
    when the condition holds and returns otherwise. *)
Definition raise_if (cond : bool) (v : validation_error) : result unit :=
  if cond then Raise (ValidationError v) else Ok tt.

Definition index_or_raise {A : Type} (l : list A) (i : Z) : result A :=
  match Py.getitem l i with
  | Some a => Ok a
  | None => Raise IndexError
  end.

(** ** The time series collaborators *)

Fixpoint find_pos (index : list Z) (ts : Z) : option nat :=
  match index with
  | [] => None
  | x :: rest =>
      if x =? ts then Some O
      else match find_pos rest ts with
           | Some p => Some (S p)
           | None => None
           end
  end.

(** [index.get_loc(ts)]: the row position of a timestamp, [KeyError] when
    the index does not hold it. *)
Definition get_loc (index : list Z) (ts : Z) : result Z :=
  match find_pos index ts with
  | Some p => Ok (Z.of_nat p)
  | None => Raise KeyError
  end.

Section Model.
Variable cell : Type.

Definition ndarray : Type := list (list cell).

(** Modelled from the spec: [paddlets.TSDataset] and its time series are
    imported by the source file and not defined in it.  A series is a
    sequence of timestamped rows, so that its time index and its matrix have
    the same length; a dataset holds a target and two optional covariates. *)
Record TimeSeries : Type := mkTimeSeries { data : list (Z * list cell) }.

Definition time_index (s : TimeSeries) : list Z := map fst (data s).
Definition to_numpy (s : TimeSeries) : ndarray := map snd (data s).

Record TSDataset : Type := mkTSDataset {
  get_target : option TimeSeries;
  get_known_cov : option TimeSeries;
  get_observed_cov : option TimeSeries
}.

(** ** MLDataset *)

Record Sample : Type := mkSample {
  past_target : ndarray;
  future_target : ndarray;
  known_cov : ndarray;
  observed_cov : ndarray
}.

Record MLDataset : Type := mkMLDataset {
  _rawdataset : TSDataset;
  _target_in_chunk_len : Z;
  _target_out_chunk_len : Z;
  _target_skip_chunk_len : Z;
  _known_cov_chunk_len : Z;
  _observed_cov_chunk_len : Z;
  _sampling_stride : Z;
  _time_window : Z * Z;
  _samples : list Sample
}.

(** [np.zeros(shape=(0, 0))] *)
Definition empty_ndarray : ndarray := [].

(** [np.vstack((a, b))] of two row ranges of one matrix *)
Definition vstack (a b : ndarray) : ndarray := a ++ b.

(** [MLDataset._compute_min_allowed_window], as a function of the three
    chunk lengths it reads from [self]. *)
Definition _compute_min_allowed_window (in_chunk_len skip_chunk_len out_chunk_len : Z) : Z :=
  Z.max 1 in_chunk_len + skip_chunk_len + out_chunk_len - 1.

Section BuildSamples.
Variable self : MLDataset.
Variable target_ts : TimeSeries.

Let in_len := _target_in_chunk_len self.
Let out_len := _target_out_chunk_len self.
Let skip_len := _target_skip_chunk_len self.

(** The known covariate chunk of the sample whose future target ends at
    [future_target_tail] (lines 792-818). *)
Definition build_known_cov (future_target_tail : Z) : result ndarray :=
  match get_known_cov (_rawdataset self) with
  | Some known_cov_ts =>
      let known_cov_ndarray := to_numpy known_cov_ts in
      known_cov_right_tail <-
        (if future_target_tail >? Py.len (time_index target_ts) - 1
         then
           max_target_timestamp <- index_or_raise (time_index target_ts) (-1) ;;
           max_target_timestamp_idx_in_known <-
             get_loc (time_index known_cov_ts) max_target_timestamp ;;
           Ok (max_target_timestamp_idx_in_known + skip_len + out_len)
         else
           future_target_tail_timestamp <-
             index_or_raise (time_index target_ts) future_target_tail ;;
           get_loc (time_index known_cov_ts) future_target_tail_timestamp) ;;
      let known_cov_right :=
        Py.slice known_cov_ndarray
          (known_cov_right_tail - out_len + 1) (known_cov_right_tail + 1) in
      let known_cov_left_tail := known_cov_right_tail - out_len - skip_len in
      let known_cov_left :=
        Py.slice known_cov_ndarray
          (known_cov_left_tail - in_len + 1) (known_cov_left_tail + 1) in
      Ok (vstack known_cov_left known_cov_right)
  | None => Ok empty_ndarray
  end.

(** The observed covariate chunk of the sample whose past target ends at
    [past_target_tail] (lines 820-830). *)
Definition build_observed_cov (past_target_tail : Z) : result ndarray :=
  match get_observed_cov (_rawdataset self) with
  | Some observed_cov_ts =>
      past_target_tail_timestamp <-
        index_or_raise (time_index target_ts) past_target_tail ;;
      observed_cov_tail <-
        get_loc (time_index observed_cov_ts) past_target_tail_timestamp ;;
      Ok (Py.slice (to_numpy observed_cov_ts)
            (observed_cov_tail - _observed_cov_chunk_len self + 1)
            (observed_cov_tail + 1))
  | None => Ok empty_ndarray
  end.

(** The body of the [while] loop of [_build_samples] (lines 770-832). *)
Definition build_sample (future_target_tail : Z) : result Sample :=
  let target_ndarray := to_numpy target_ts in
  let future :=
    if future_target_tail >? Py.len (time_index target_ts) - 1
    then empty_ndarray
    else Py.slice target_ndarray
           (future_target_tail - out_len + 1) (future_target_tail + 1) in
  let past_target_tail := future_target_tail - out_len - skip_len in
  let past :=
    if in_len =? 0
    then empty_ndarray
    else Py.slice target_ndarray
           (past_target_tail - in_len + 1) (past_target_tail + 1) in
  known <- build_known_cov future_target_tail ;;
  observed <- build_observed_cov past_target_tail ;;
  Ok (mkSample past future known observed).

(** The [while] loop of [_build_samples] (lines 769-836), bounded by
    [fuel] iterations. *)
Fixpoint build_loop (fuel : nat) (future_target_tail : Z) : result (list Sample) :=
  if future_target_tail <=? snd (_time_window self)
  then match fuel with
       | O => OutOfFuel
       | S fuel' =>
           sample <- build_sample future_target_tail ;;
           samples <- build_loop fuel' (future_target_tail + _sampling_stride self) ;;
           Ok (sample :: samples)
       end
  else Ok [].

End BuildSamples.

(** [MLDataset._build_samples]: a stride of at least 1 ends the loop
    within [upper - lower + 1] iterations. *)
Definition _build_samples (self : MLDataset) : result (list Sample) :=
  match get_target (_rawdataset self) with
  | Some target_ts =>
      let '(lower, upper) := _time_window self in
      build_loop self target_ts (Z.to_nat (upper - lower + 1)) lower
  | None => Raise AttributeError
  end.


(** ** Construction *)

Section Init.
Variable rawdataset : option TSDataset.
Variables in_chunk_len out_chunk_len skip_chunk_len sampling_stride : Z.
Variable time_window : option (Z * Z).

(** Lines 261-279: the dataset, its target and the four scalar parameters. *)
Definition check_arguments : result (TSDataset * TimeSeries) :=
  match rawdataset with
  | None => Raise (ValidationError NullDatasetError)
  | Some ds =>
      match get_target ds with
      | None => Raise (ValidationError NullTargetError)
      | Some target =>
          raise_if (Py.len (time_index target) <? 1) EmptyTargetError ;;;
          raise_if (in_chunk_len <? 0) InvalidChunkLengthError ;;;
          raise_if (skip_chunk_len <? 0) InvalidChunkLengthError ;;;
          raise_if (out_chunk_len <=? 0) InvalidChunkLengthError ;;;
          raise_if (sampling_stride <=? 0) InvalidStrideError ;;;
          Ok (ds, target)
      end
  end.

(** Lines 281-294: the default window of a caller that passes none. *)
Definition resolve_time_window (target : TimeSeries) : result (Z * Z) :=
  match time_window with
  | None =>
      raise_if
        (Py.len (time_index target)
           <? Z.max 1 in_chunk_len + skip_chunk_len + out_chunk_len)
        TargetTooShortError ;;;
      let default_min_window :=
        _compute_min_allowed_window in_chunk_len skip_chunk_len out_chunk_len in
      let default_max_window := Py.len (time_index target) - 1 in
      Ok (default_min_window, default_max_window)
  | Some w => Ok w
  end.

Definition max_allowed_window (target : TimeSeries) : Z :=
  Py.len (data target) - 1 + skip_chunk_len + out_chunk_len.

(** Lines 296-306: the window against its two bounds. *)
Definition check_window_bounds (target : TimeSeries) (w : Z * Z) : result unit :=
  let min_allowed_window :=
    _compute_min_allowed_window in_chunk_len skip_chunk_len out_chunk_len in
  raise_if (fst w <? min_allowed_window) WindowLowerBoundError ;;;
  raise_if (snd w >? max_allowed_window target) WindowUpperBoundError.

(** Lines 308-334: the target is long enough for one sample; returns
    [max_target_timestamp]. *)
Definition check_target_length (target : TimeSeries) (w : Z * Z) : result Z :=
  let max_target_idx := Py.len (time_index target) - 1 in
  max_target_timestamp <- index_or_raise (time_index target) max_target_idx ;;
  let min_allowed_target_len :=
    if snd w >? max_target_idx
    then Z.max 1 in_chunk_len
    else Z.max 1 in_chunk_len + skip_chunk_len + out_chunk_len in
  raise_if (Py.len (time_index target) <? min_allowed_target_len)
    TargetTooShortError ;;;
  Ok max_target_timestamp.

(** Lines 336-412: the known covariate reaches far enough. *)
Definition check_known_cov (ds : TSDataset) (target : TimeSeries) (w : Z * Z)
  (max_target_timestamp : Z) : result unit :=
  let max_target_idx := Py.len (time_index target) - 1 in
  let target_timeindex := time_index target in
  match get_known_cov ds with
  | Some known =>
      let known_timeindex := time_index known in
      if snd w >? max_target_idx
      then
        known_last <- index_or_raise known_timeindex (-1) ;;
        raise_if (known_last <? max_target_timestamp)
          KnownCovTimestampTooEarlyError ;;;
        idx <- get_loc known_timeindex max_target_timestamp ;;
        let exceeded_time_steps := snd w - max_target_idx in
        raise_if (Py.len (Py.slice_from known_timeindex idx) <=? exceeded_time_steps)
          KnownCovInsufficientError
      else
        upper_window_timestamp <- index_or_raise target_timeindex (snd w) ;;
        known_last <- index_or_raise known_timeindex (-1) ;;
        raise_if (known_last <? upper_window_timestamp)
          KnownCovTimestampTooEarlyError
  | None => Ok tt
  end.

(** Lines 414-457: the observed covariate reaches far enough. *)
Definition check_observed_cov (ds : TSDataset) (target : TimeSeries) (w : Z * Z)
  (max_target_timestamp : Z) : result unit :=
  let max_target_idx := Py.len (time_index target) - 1 in
  let target_timeindex := time_index target in
  match get_observed_cov ds with
  | Some observed =>
      let observed_timeindex := time_index observed in
      if snd w >? max_target_idx
      then
        observed_last <- index_or_raise observed_timeindex (-1) ;;
        raise_if (observed_last <? max_target_timestamp)
          ObservedCovTimestampTooEarlyError
      else
        let last_sample_past_target_tail :=
          snd w - skip_chunk_len - out_chunk_len in
        last_sample_past_target_tail_timestamp <-
          index_or_raise target_timeindex last_sample_past_target_tail ;;
        observed_last <- index_or_raise observed_timeindex (-1) ;;
        raise_if (observed_last <? last_sample_past_target_tail_timestamp)
          ObservedCovTimestampTooEarlyError
  | None => Ok tt
  end.

(** The checks that come before the one of the observed covariate. *)
Definition validate_before_observed_cov
  : result (TSDataset * TimeSeries * (Z * Z) * Z) :=
  '(ds, target) <- check_arguments ;;
  w <- resolve_time_window target ;;
  check_window_bounds target w ;;;
  max_target_timestamp <- check_target_length target w ;;
  check_known_cov ds target w max_target_timestamp ;;;
  Ok (ds, target, w, max_target_timestamp).

(** The object as [__init__] has it before [_samples] is assigned. *)
Definition self_before_build (ds : TSDataset) (w : Z * Z) : MLDataset :=
  mkMLDataset ds in_chunk_len out_chunk_len skip_chunk_len
    (in_chunk_len + out_chunk_len)
    (if in_chunk_len =? 0 then 1 else in_chunk_len)
    sampling_stride w [].

(** [self._samples = samples] *)
Definition set_samples (self : MLDataset) (samples : list Sample) : MLDataset :=
  mkMLDataset (_rawdataset self) (_target_in_chunk_len self)
    (_target_out_chunk_len self) (_target_skip_chunk_len self)
    (_known_cov_chunk_len self) (_observed_cov_chunk_len self)
    (_sampling_stride self) (_time_window self) samples.

(** [MLDataset.__init__] *)
Definition __init__ : result MLDataset :=
  '(ds, target, w, max_target_timestamp) <- validate_before_observed_cov ;;
  check_observed_cov ds target w max_target_timestamp ;;;
  let self := self_before_build ds w in
  samples <- _build_samples self ;;
  Ok (set_samples self samples).

End Init.

(** [MLDataset.__len__] *)
Definition __len__ (self : MLDataset) : Z := Py.len (_samples self).

(** [MLDataset.__getitem__] *)
Definition __getitem__ (self : MLDataset) (idx : Z) : result Sample :=
  index_or_raise (_samples self) idx.

(** The property [MLDataset.samples] *)
Definition samples (self : MLDataset) : list Sample := _samples self.

End Model.

(** ** The words of the specification *)

Section SpecWords.
Variable A : Type.

(** [count] consecutive rows starting at row [first], each of which has to
    exist. *)
Fixpoint rows_from (m : list A) (first count : nat) : option (list A) :=
  match count with
  | O => Some []
  | S count' =>
      match nth_error m first, rows_from m (S first) count' with
      | Some r, Some rs => Some (r :: rs)
      | _, _ => None
      end
  end.

(** The rows [first .. last] of a matrix, both ends included: the empty
    range [last + 1 .. last] has no rows, any other range has to be in order
    and to lie within the matrix. *)
Definition rows_between (m : list A) (first last : Z) : option (list A) :=
  if first =? last + 1 then Some []
  else if (first <? 0) || (last <? first) then None
  else rows_from m (Z.to_nat first) (Z.to_nat (last - first + 1)).

End SpecWords.

(** [position_of(timestamp)]: the row of a timestamp in a time index. *)
Definition position_of (index : list Z) (ts : Z) : option Z :=
  option_map Z.of_nat (find_pos index ts).

(** [timestamp_at(row)] for a row of the index. *)
Definition timestamp_at (index : list Z) (row : Z) : option Z :=
  if row <? 0 then None else nth_error index (Z.to_nat row).

(** [last_timestamp()] *)
Definition last_timestamp (index : list Z) : option Z :=
  match rev index with
  | [] => None
  | ts :: _ => Some ts
  end.

(** A window-bound error is one of the two errors of lines 296-306. *)
Definition window_bound_error (v : validation_error) : Prop :=
  v = WindowLowerBoundError \/ v = WindowUpperBoundError.

(** The observed covariate ends too early for the window: before the past
    target tail of the last sample when the window lies within the target
    (the index is a Python index), before the last target timestamp when the
    window reaches past the target. *)
Definition observed_cov_too_early (cell : Type)
  (target observed : TimeSeries cell) (skip_chunk_len out_chunk_len upper : Z)
  : Prop :=
  (upper <= Py.len (time_index target) - 1 /\
   exists ts olast,
     Py.getitem (time_index target) (upper - skip_chunk_len - out_chunk_len)
       = Some ts /\
     last_timestamp (time_index observed) = Some olast /\ olast < ts)
  \/
  (upper > Py.len (time_index target) - 1 /\
   exists tlast olast,
     last_timestamp (time_index target) = Some tlast /\
     last_timestamp (time_index observed) = Some olast /\ olast < tlast).

(** The known covariate ends too early for the window: before the target
    timestamp at the upper bound (a Python index) when the window lies
    within the target, before the last target timestamp when the window
    reaches past the target. *)
Definition known_cov_too_early (cell : Type)
  (target known : TimeSeries cell) (upper : Z) : Prop :=
  (upper <= Py.len (time_index target) - 1 /\
   exists ts klast,
     Py.getitem (time_index target) upper = Some ts /\
     last_timestamp (time_index known) = Some klast /\ klast < ts)
  \/
  (upper > Py.len (time_index target) - 1 /\
   exists tlast klast,
     last_timestamp (time_index target) = Some tlast /\
     last_timestamp (time_index known) = Some klast /\ klast < tlast).

(** ** Time indexes that share their rows

    A pandas time index of a fixed frequency is strictly increasing; two
    series of one frequency that start at the same timestamp hold the same
    timestamp in every row that both have. *)

Fixpoint strictly_increasing (index : list Z) : bool :=
  match index with
  | [] => true
  | x :: rest =>
      match rest with
      | [] => true
      | y :: _ => (x <? y) && strictly_increasing rest
      end
  end.

Fixpoint rows_agree (a b : list Z) : bool :=
  match a, b with
  | x :: a', y :: b' => (x =? y) && rows_agree a' b'
  | _, _ => true
  end.

(** ** The examples of the docstrings *)

Module Examples.

Definition series (index : list Z) (row : Z -> list Z) : TimeSeries Z :=
  mkTimeSeries (map (fun t => (t, row t)) index).

(** The dataset of the two scenarios of [_build_samples]. *)
Definition target8 : TimeSeries Z :=
  series [0; 1; 2; 3; 4; 5; 6; 7] (fun t => [t; 10 * t]).
Definition known9 : TimeSeries Z :=
  series [0; 1; 2; 3; 4; 5; 6; 7; 8] (fun t => [10 * t; 100 * t; 1000 * t]).
Definition observed8 : TimeSeries Z :=
  series [0; 1; 2; 3; 4; 5; 6; 7] (fun t => [- t]).
Definition dataset8 : TSDataset Z :=
  mkTSDataset (Some target8) (Some known9) (Some observed8).
Definition target_only8 : TSDataset Z :=
  mkTSDataset (Some target8) None None.

(** The dataset of the comment on the known covariate check of
    [__init__]: target at 8:00 .. 10:00, known covariate at 7:00 .. 11:00. *)
Definition target3 : TimeSeries Z := series [8; 9; 10] (fun t => [t]).
Definition known5 : TimeSeries Z := series [7; 8; 9; 10; 11] (fun t => [100 * t]).
Definition dataset3 : TSDataset Z :=
  mkTSDataset (Some target3) (Some known5) None.

(** A target of one row. *)
Definition target1 : TimeSeries Z := series [0] (fun t => [t]).
Definition dataset1 : TSDataset Z := mkTSDataset (Some target1) None None.

End Examples.

(** ** Datasets at the edges of the checks *)

Module EdgeCases.

(** A known covariate of the frequency of the target and out of step with
    it: it reaches past 10:00 and has no row for it. *)
Definition known_out_of_step : TimeSeries Z :=
  Examples.series [7; 9; 11; 13] (fun t => [100 * t]).
Definition dataset_out_of_step : TSDataset Z :=
  mkTSDataset (Some Examples.target3) (Some known_out_of_step) None.

(** Covariates without a row. *)
Definition no_rows : TimeSeries Z := mkTimeSeries [].
Definition dataset_empty_known : TSDataset Z :=
  mkTSDataset (Some Examples.target8) (Some no_rows) None.
Definition dataset_empty_observed : TSDataset Z :=
  mkTSDataset (Some Examples.target8) None (Some no_rows).

(** A known covariate that ends one step before the target. *)
Definition known7 : TimeSeries Z :=
  Examples.series [0; 1; 2; 3; 4; 5; 6] (fun t => [10 * t]).
Definition dataset_known7 : TSDataset Z :=
  mkTSDataset (Some Examples.target8) (Some known7) None.

(** The known covariate of the docstrings, three steps past the target. *)
Definition known11 : TimeSeries Z :=
  Examples.series [0; 1; 2; 3; 4; 5; 6; 7; 8; 9; 10] (fun t => [10 * t]).
Definition dataset_known11 : TSDataset Z :=
  mkTSDataset (Some Examples.target8) (Some known11) (Some Examples.observed8).


(** A known covariate that starts two steps after the target. *)
Definition target7 : TimeSeries Z :=
  Examples.series [0; 1; 2; 3; 4; 5; 6] (fun t => [t]).
Definition known_late : TimeSeries Z :=
  Examples.series [2; 3; 4; 5; 6; 7; 8] (fun t => [100 * t]).
Definition dataset_known_late : TSDataset Z :=
  mkTSDataset (Some target7) (Some known_late) None.

End EdgeCases.

(** * Properties *)

(** ** Python sequences *)

Section PyFacts.
Variable A : Type.
Implicit Types l : list A.

Lemma slice_within l start stop :
  0 <= start -> start <= stop -> stop <= Py.len l ->
  Py.slice l start stop =
  firstn (Z.to_nat (stop - start)) (skipn (Z.to_nat start) l).
Proof.
  intros H0 H1 H2. unfold Py.slice, Py.clip.
  destruct (Z.ltb_spec start 0); [lia|].
  destruct (Z.ltb_spec stop 0); [lia|].
  rewrite !Z.min_l by lia. reflexivity.
Qed.

Lemma len_slice_within l start stop :
  0 <= start -> start <= stop -> stop <= Py.len l ->
  Py.len (Py.slice l start stop) = stop - start.
Proof.
  intros H0 H1 H2. rewrite slice_within by assumption.
  unfold Py.len in *. rewrite length_firstn, length_skipn. lia.
Qed.

Lemma slice_empty l i : Py.slice l i i = [].
Proof.
  unfold Py.slice. rewrite Z.sub_diag. reflexivity.
Qed.

Lemma len_slice_from l start :
  0 <= start -> start <= Py.len l ->
  Py.len (Py.slice_from l start) = Py.len l - start.
Proof.
  intros. unfold Py.slice_from. apply len_slice_within; lia.
Qed.

Lemma getitem_nonneg l i :
  0 <= i -> Py.getitem l i = nth_error l (Z.to_nat i).
Proof.
  intros H. unfold Py.getitem. destruct (Z.ltb_spec i 0); [lia|reflexivity].
Qed.

Lemma getitem_negative l i :
  - Py.len l <= i < 0 ->
  Py.getitem l i = nth_error l (Z.to_nat (Py.len l + i)).
Proof.
  intros H. unfold Py.getitem.
  destruct (Z.ltb_spec i 0); [|lia].
  destruct (Z.ltb_spec (i + Py.len l) 0); [lia|].
  now rewrite Z.add_comm.
Qed.

Lemma getitem_out_of_range l i :
  i < - Py.len l \/ Py.len l <= i -> Py.getitem l i = None.
Proof.
  intros H. unfold Py.getitem.
  destruct (Z.ltb_spec i 0).
  - destruct (Z.ltb_spec (i + Py.len l) 0); [reflexivity|lia].
  - apply nth_error_None. unfold Py.len in *. lia.
Qed.

Lemma getitem_in_range l i :
  0 <= i < Py.len l -> exists a, Py.getitem l i = Some a.
Proof.
  intros H. rewrite getitem_nonneg by lia.
  destruct (nth_error l (Z.to_nat i)) eqn:E; [eauto|].
  apply nth_error_None in E. unfold Py.len in *. lia.
Qed.

Lemma skipn_nth_error l : forall first r,
  nth_error l first = Some r -> skipn first l = r :: skipn (S first) l.
Proof.
  induction l as [|x l IH]; intros [|first] r H; simpl in *; try discriminate.
  - congruence.
  - apply IH. exact H.
Qed.

Lemma rows_from_firstn_skipn l : forall count first rs,
  rows_from l first count = Some rs ->
  firstn count (skipn first l) = rs /\ (first + count <= length l \/ count = 0)%nat.
Proof.
  induction count as [|count IH]; intros first rs H; simpl in H.
  - injection H as <-. split; [reflexivity|lia].
  - destruct (nth_error l first) as [r|] eqn:Er; [|discriminate].
    destruct (rows_from l (S first) count) as [rs'|] eqn:Ers; [|discriminate].
    injection H as <-.
    destruct (IH _ _ Ers) as [IH1 IH2].
    assert (Hlt : (first < length l)%nat)
      by (apply nth_error_Some; congruence).
    split.
    + rewrite (skipn_nth_error _ _ Er), firstn_cons. f_equal. exact IH1.
    + left. destruct IH2 as [IH2| ->]; lia.
Qed.

Lemma rows_between_slice l first last rs :
  rows_between l first last = Some rs ->
  Py.slice l first (last + 1) = rs.
Proof.
  unfold rows_between. intros H.
  destruct (Z.eqb_spec first (last + 1)) as [->|Hne].
  - injection H as <-. apply slice_empty.
  - destruct (Z.ltb_spec first 0) as [Hneg|Hpos]; [discriminate|].
    destruct (Z.ltb_spec last first) as [Hlt|Hle]; [discriminate|].
    simpl in H.
    apply rows_from_firstn_skipn in H. destruct H as [H Hb].
    rewrite slice_within; unfold Py.len; try lia.
    replace (last + 1 - first) with (last - first + 1) by lia. exact H.
Qed.

Lemma len_rows_between l first last rs :
  rows_between l first last = Some rs ->
  Py.len rs = last - first + 1.
Proof.
  unfold rows_between. intros H.
  destruct (Z.eqb_spec first (last + 1)) as [->|Hne].
  - injection H as <-. unfold Py.len. simpl. lia.
  - destruct (Z.ltb_spec first 0) as [Hneg|Hpos]; [discriminate|].
    destruct (Z.ltb_spec last first) as [Hlt|Hle]; [discriminate|].
    simpl in H.
    apply rows_from_firstn_skipn in H. destruct H as [<- Hb].
    unfold Py.len. rewrite length_firstn, length_skipn. lia.
Qed.

End PyFacts.

(** ** The result monad *)

Lemma bind_ok A B (m : result A) (k : A -> result B) b :
  bind m k = Ok b <-> exists a, m = Ok a /\ k a = Ok b.
Proof.
  destruct m as [a| |]; simpl; split.
  - intros H. exists a. auto.
  - intros (a' & H1 & H2). congruence.
  - discriminate.
  - intros (a' & H1 & H2). discriminate.
  - discriminate.
  - intros (a' & H1 & H2). discriminate.
Qed.

Lemma bind_raise A B (m : result A) (k : A -> result B) e :
  bind m k = Raise e <-> m = Raise e \/ exists a, m = Ok a /\ k a = Raise e.
Proof.
  destruct m as [a| |]; simpl; split.
  - intros H. right. exists a. auto.
  - intros [H|(a' & H1 & H2)]; congruence.
  - intros [= ->]. left. reflexivity.
  - intros [H|(a' & H1 & H2)]; congruence.
  - discriminate.
  - intros [H|(a' & H1 & H2)]; discriminate.
Qed.

Lemma raise_if_ok c v u : raise_if c v = Ok u <-> c = false.
Proof. destruct c, u; simpl; split; congruence. Qed.

Lemma raise_if_raise c v e :
  raise_if c v = Raise e <-> c = true /\ e = ValidationError v.
Proof.
  destruct c; simpl; split; try congruence.
  - intros [= <-]. auto.
  - intros [_ ->]. reflexivity.
  - intros [H _]. discriminate.
Qed.

Lemma index_or_raise_ok A (l : list A) i a :
  index_or_raise l i = Ok a <-> Py.getitem l i = Some a.
Proof.
  unfold index_or_raise. destruct (Py.getitem l i); split; congruence.
Qed.

Lemma find_pos_Some index : forall ts p,
  find_pos index ts = Some p ->
  (p < length index)%nat /\ nth_error index p = Some ts.
Proof.
  induction index as [|x index IH]; simpl; intros ts p H; [discriminate|].
  destruct (Z.eqb_spec x ts) as [->|Hne].
  - injection H as <-. simpl. split; [lia|reflexivity].
  - destruct (find_pos index ts) as [q|] eqn:E; [|discriminate].
    injection H as <-. destruct (IH _ _ E). simpl. split; [lia|assumption].
Qed.

Lemma get_loc_ok index ts p :
  get_loc index ts = Ok p <-> position_of index ts = Some p.
Proof.
  unfold get_loc, position_of.
  destruct (find_pos index ts); simpl; split; congruence.
Qed.

Lemma position_of_range index ts p :
  position_of index ts = Some p ->
  0 <= p < Py.len index /\ timestamp_at index p = Some ts.
Proof.
  unfold position_of, timestamp_at, Py.len. intros H.
  destruct (find_pos index ts) as [q|] eqn:E; [|discriminate].
  injection H as <-. apply find_pos_Some in E. destruct E as [E1 E2].
  destruct (Z.ltb_spec (Z.of_nat q) 0); [lia|].
  rewrite Nat2Z.id. split; [lia|assumption].
Qed.

Lemma last_timestamp_getitem index :
  Py.getitem index (-1) = last_timestamp index.
Proof.
  unfold last_timestamp.
  destruct (rev index) as [|ts r] eqn:E.
  - apply (f_equal (@rev Z)) in E. rewrite rev_involutive in E. now subst.
  - apply (f_equal (@rev Z)) in E. rewrite rev_involutive in E. simpl in E.
    subst index.
    assert (Hlen : Py.len (rev r ++ [ts]) = Z.of_nat (length (rev r)) + 1)
      by (unfold Py.len; rewrite length_app; cbn [length]; lia).
    rewrite getitem_negative by lia. rewrite Hlen.
    replace (Z.to_nat _) with (length (rev r)) by lia.
    rewrite nth_error_app2 by lia. now rewrite Nat.sub_diag.
Qed.

Lemma last_timestamp_getitem_len index :
  Py.getitem index (Py.len index - 1) = last_timestamp index.
Proof.
  rewrite <- last_timestamp_getitem.
  destruct index as [|x index]; [reflexivity|].
  assert (Hlen : 1 <= Py.len (x :: index))
    by (unfold Py.len; cbn [length]; lia).
  rewrite getitem_nonneg by lia.
  rewrite getitem_negative by lia.
  f_equal; lia.
Qed.

(** ** Calls that are not cut off *)

Lemma terminates_Ok A (a : A) : terminates (Ok a).
Proof. discriminate. Qed.

Lemma terminates_Raise A e : terminates (@Raise A e).
Proof. discriminate. Qed.

Lemma terminates_bind A B (m : result A) (k : A -> result B) :
  terminates m -> (forall a, terminates (k a)) -> terminates (bind m k).
Proof.
  unfold terminates. intros Hm Hk. destruct m as [a| |]; simpl.
  - apply Hk.
  - discriminate.
  - now contradiction Hm.
Qed.

Lemma terminates_raise_if c v : terminates (raise_if c v).
Proof. destruct c; discriminate. Qed.

Lemma terminates_index_or_raise A (l : list A) i : terminates (index_or_raise l i).
Proof. unfold index_or_raise. destruct (Py.getitem l i); discriminate. Qed.

Lemma terminates_get_loc index ts : terminates (get_loc index ts).
Proof. unfold get_loc. destruct (find_pos index ts); discriminate. Qed.

Ltac terminates_step :=
  repeat first
    [ apply terminates_bind; [|intros ?]
    | apply terminates_Ok | apply terminates_Raise
    | apply terminates_raise_if | apply terminates_index_or_raise
    | apply terminates_get_loc
    | match goal with
      | |- terminates (match ?x with _ => _ end) => destruct x
      | |- terminates (if ?c then _ else _) => destruct c
      | |- terminates (let '(_, _) := ?p in _) => destruct p
      end ].

(** ** The exceptions a call can raise *)

Lemma raises_only_Ok A P (a : A) : raises_only P (Ok a).
Proof. intros e H. discriminate. Qed.

Lemma raises_only_Raise A (P : exn -> Prop) e : P e -> raises_only P (@Raise A e).
Proof. intros H e' [= <-]. exact H. Qed.

Lemma raises_only_bind A B P (m : result A) (k : A -> result B) :
  raises_only P m -> (forall a, raises_only P (k a)) -> raises_only P (bind m k).
Proof.
  intros Hm Hk e H. apply bind_raise in H.
  destruct H as [H|(a & _ & H)]; [apply (Hm e H)|apply (Hk a e H)].
Qed.

Lemma raises_only_raise_if (P : exn -> Prop) c v :
  P (ValidationError v) -> raises_only P (raise_if c v).
Proof. intros H e He. apply raise_if_raise in He. destruct He as [_ ->]. exact H. Qed.

Lemma raises_only_index_or_raise A (P : exn -> Prop) (l : list A) i :
  P IndexError -> raises_only P (index_or_raise l i).
Proof.
  intros H e. unfold index_or_raise.
  destruct (Py.getitem l i); [discriminate|]. intros [= <-]. exact H.
Qed.

Lemma raises_only_get_loc (P : exn -> Prop) index ts :
  P KeyError -> raises_only P (get_loc index ts).
Proof.
  intros H e. unfold get_loc.
  destruct (find_pos index ts); [discriminate|]. intros [= <-]. exact H.
Qed.

Ltac raises_only_step :=
  repeat first
    [ apply raises_only_bind; [|intros ?]
    | apply raises_only_Ok
    | apply raises_only_Raise
    | apply raises_only_raise_if
    | apply raises_only_index_or_raise
    | apply raises_only_get_loc
    | match goal with
      | |- raises_only _ (match ?x with _ => _ end) => destruct x
      | |- raises_only _ (if ?c then _ else _) => destruct c
      end ].

(** ** The stages of the construction *)

Ltac inv_ok :=
  repeat match goal with
    | H : bind _ _ = Ok _ |- _ =>
        apply bind_ok in H; destruct H as (? & ? & ?)
    | H : raise_if _ _ = Ok _ |- _ => apply raise_if_ok in H
    | H : index_or_raise _ _ = Ok _ |- _ => apply index_or_raise_ok in H
    | H : get_loc _ _ = Ok _ |- _ => apply get_loc_ok in H
    | H : (_ <? _) = false |- _ => apply Z.ltb_ge in H
    | H : (_ <=? _) = false |- _ => apply Z.leb_gt in H
    | H : (_ >? _) = false |- _ => rewrite Z.gtb_ltb in H; apply Z.ltb_ge in H
    end.

Ltac inv_tuples :=
  repeat match goal with
    | x : (_ * _)%type |- _ => destruct x
    | x : unit |- _ => destruct x
    | H : Ok _ = Ok _ |- _ => injection H as H
    | H : (_, _) = (_, _) |- _ => injection H as ? ?
    end; subst.

Ltac Zbool :=
  repeat match goal with
    | H : context [?a <? ?b] |- _ => destruct (Z.ltb_spec a b)
    | H : context [?a <=? ?b] |- _ => destruct (Z.leb_spec a b)
    | H : context [?a >? ?b] |- _ => rewrite (Z.gtb_ltb a b) in H
    | H : context [?a =? ?b] |- _ => destruct (Z.eqb_spec a b)
    | |- context [?a <? ?b] => destruct (Z.ltb_spec a b)
    | |- context [?a <=? ?b] => destruct (Z.leb_spec a b)
    | |- context [?a >? ?b] => rewrite (Z.gtb_ltb a b)
    | |- context [?a =? ?b] => destruct (Z.eqb_spec a b)
    end.

Section Stages.
Variable cell : Type.
Variable rawdataset : option (TSDataset cell).
Variables in_len out_len skip_len stride : Z.
Variable time_window : option (Z * Z).

Implicit Types (ds : TSDataset cell) (target : TimeSeries cell) (w : Z * Z).

Local Abbreviation min_allowed :=
  (_compute_min_allowed_window in_len skip_len out_len).

Lemma check_arguments_ok ds target :
  check_arguments rawdataset in_len out_len skip_len stride = Ok (ds, target) <->
  rawdataset = Some ds /\ get_target ds = Some target /\
  1 <= Py.len (time_index target) /\
  0 <= in_len /\ 0 <= skip_len /\ 0 < out_len /\ 0 < stride.
Proof.
  unfold check_arguments, raise_if.
  destruct rawdataset as [ds'|]; [|split; [discriminate|intros ([=] & _)]].
  destruct (get_target ds') as [t'|] eqn:Et;
    [|split; [discriminate|intros ([= <-] & H & _); congruence]].
  split.
  - intros H. Zbool; simpl in H; try discriminate.
    injection H as <- <-. repeat split; auto; lia.
  - intros ([= <-] & H & H1 & H2 & H3 & H4 & H5).
    rewrite Et in H. injection H as <-.
    Zbool; simpl; try lia. reflexivity.
Qed.

Lemma resolve_time_window_ok target w :
  resolve_time_window in_len out_len skip_len time_window target = Ok w <->
  match time_window with
  | None =>
      Z.max 1 in_len + skip_len + out_len <= Py.len (time_index target) /\
      w = (min_allowed, Py.len (time_index target) - 1)
  | Some w' => w = w'
  end.
Proof.
  unfold resolve_time_window, raise_if.
  destruct time_window as [w'|].
  - split; congruence.
  - split.
    + intros H. Zbool; simpl in H; try discriminate.
      injection H as <-. split; [lia|reflexivity].
    + intros [H ->]. Zbool; [lia|reflexivity].
Qed.

Lemma check_window_bounds_ok target w u :
  check_window_bounds in_len out_len skip_len target w = Ok u <->
  min_allowed <= fst w /\ snd w <= max_allowed_window out_len skip_len target.
Proof.
  unfold check_window_bounds, raise_if. destruct u.
  rewrite Z.gtb_ltb. split.
  - intros H.
    destruct (Z.ltb_spec (fst w) min_allowed); [discriminate|]. simpl in H.
    destruct (Z.ltb_spec (max_allowed_window out_len skip_len target) (snd w));
      [discriminate|]. lia.
  - intros [H1 H2]. apply Z.ltb_ge in H1, H2. rewrite H1. simpl.
    rewrite H2. reflexivity.
Qed.

Lemma check_target_length_ok target w mts :
  check_target_length in_len out_len skip_len target w = Ok mts <->
  last_timestamp (time_index target) = Some mts /\
  (if snd w >? Py.len (time_index target) - 1
   then Z.max 1 in_len
   else Z.max 1 in_len + skip_len + out_len) <= Py.len (time_index target).
Proof.
  unfold check_target_length. rewrite bind_ok. split.
  - intros (a & Ha & H). apply index_or_raise_ok in Ha.
    rewrite last_timestamp_getitem_len in Ha.
    apply bind_ok in H. destruct H as ([] & H1 & [= ->]).
    apply raise_if_ok in H1. split; [assumption|]. apply Z.ltb_ge. exact H1.
  - intros [H1 H2]. exists mts. split.
    + apply index_or_raise_ok. now rewrite last_timestamp_getitem_len.
    + apply bind_ok. exists tt. split; [|reflexivity].
      apply raise_if_ok. apply Z.ltb_ge. exact H2.
Qed.

End Stages.

(** ** The loop of [_build_samples] *)

Section Building.
Variable cell : Type.
Variable self : MLDataset cell.
Variable target : TimeSeries cell.

Local Abbreviation upper := (snd (_time_window self)).
Local Abbreviation stride := (_sampling_stride self).

Lemma build_known_cov_terminates t : terminates (build_known_cov self target t).
Proof. unfold build_known_cov. terminates_step. Qed.

Lemma build_observed_cov_terminates t :
  terminates (build_observed_cov self target t).
Proof. unfold build_observed_cov. terminates_step. Qed.

Lemma build_sample_terminates t : terminates (build_sample self target t).
Proof.
  unfold build_sample. cbv zeta.
  apply terminates_bind; [apply build_known_cov_terminates|intros k].
  apply terminates_bind; [apply build_observed_cov_terminates|intros o].
  apply terminates_Ok.
Qed.

(** The loop is not cut off when it is given one unit of fuel for each
    tail position that is left in the window. *)
Lemma build_loop_terminates :
  0 < stride ->
  forall fuel t,
    (Z.to_nat (upper - t + 1) <= fuel)%nat ->
    terminates (build_loop self target fuel t).
Proof.
  intros Hs. induction fuel as [|fuel IH]; intros t Hf; simpl.
  - destruct (Z.leb_spec t upper); [lia|apply terminates_Ok].
  - destruct (Z.leb_spec t upper); [|apply terminates_Ok].
    apply terminates_bind; [apply build_sample_terminates|intros s].
    apply terminates_bind; [apply IH; lia|intros l]. apply terminates_Ok.
Qed.

(** The loop runs once for each [t = lower, lower + stride, ...] that does
    not exceed the upper bound. *)
Lemma build_loop_length :
  0 < stride ->
  forall fuel t samples,
    build_loop self target fuel t = Ok samples ->
    Py.len samples = Z.max 0 ((upper - t) / stride + 1).
Proof.
  intros Hs. induction fuel as [|fuel IH]; intros t samples H; simpl in H.
  - destruct (Z.leb_spec t upper); [discriminate|].
    injection H as <-.
    assert ((upper - t) / stride < 0)
      by (apply Z.div_lt_upper_bound; lia).
    unfold Py.len. simpl. lia.
  - destruct (Z.leb_spec t upper) as [Hle|Hgt].
    + inv_ok. injection H1 as <-.
      apply IH in H0.
      replace (upper - (t + stride)) with (upper - t + (-1) * stride) in H0 by lia.
      rewrite Z.div_add in H0 by lia.
      assert (0 <= (upper - t) / stride) by (apply Z.div_pos; lia).
      unfold Py.len in *. cbn [length]. lia.
    + injection H as <-.
      assert ((upper - t) / stride < 0)
        by (apply Z.div_lt_upper_bound; lia).
      unfold Py.len. simpl. lia.
Qed.

(** The [i]-th sample of the loop is the one built at tail
    [t + i * stride], which lies in the window. *)
Lemma build_loop_nth :
  forall fuel t samples,
    build_loop self target fuel t = Ok samples ->
    forall i sample,
      nth_error samples i = Some sample ->
      t + Z.of_nat i * stride <= upper /\
      build_sample self target (t + Z.of_nat i * stride) = Ok sample.
Proof.
  induction fuel as [|fuel IH]; intros t samples H i sample Hi; simpl in H.
  - destruct (Z.leb_spec t upper); [discriminate|].
    injection H as <-. destruct i; discriminate.
  - destruct (Z.leb_spec t upper) as [Hle|Hgt].
    + inv_ok. injection H1 as <-. destruct i as [|i].
      * injection Hi as <-. rewrite Z.add_0_r. auto.
      * simpl in Hi. destruct (IH _ _ H0 _ _ Hi) as [IH1 IH2].
        replace (t + Z.of_nat (S i) * stride)
          with (t + stride + Z.of_nat i * stride) by lia.
        auto.
    + injection H as <-. destruct i; discriminate.
Qed.

Lemma build_loop_raises fuel : forall t,
  raises_only (fun e => e = IndexError \/ e = KeyError)
    (build_loop self target fuel t).
Proof.
  induction fuel as [|fuel IH]; intros t; simpl.
  - destruct (t <=? upper); [intros e H; discriminate|apply raises_only_Ok].
  - destruct (t <=? upper); [|apply raises_only_Ok].
    apply raises_only_bind; [|intros s].
    + unfold build_sample, build_known_cov, build_observed_cov. cbv zeta.
      raises_only_step; auto.
    + apply raises_only_bind; [apply IH|intros l; apply raises_only_Ok].
Qed.

End Building.

Lemma _build_samples_terminates cell (self : MLDataset cell) :
  0 < _sampling_stride self -> terminates (_build_samples self).
Proof.
  intros Hs. unfold _build_samples.
  destruct (get_target (_rawdataset self)); [|apply terminates_Raise].
  destruct (_time_window self) as [lower upper] eqn:Ew.
  apply build_loop_terminates; [assumption|]. rewrite Ew. simpl. lia.
Qed.

Lemma _build_samples_raises cell (self : MLDataset cell) :
  raises_only (fun e => e = IndexError \/ e = KeyError \/ e = AttributeError)
    (_build_samples self).
Proof.
  unfold _build_samples.
  destruct (get_target (_rawdataset self)); [|apply raises_only_Raise; auto].
  destruct (_time_window self) as [lower upper].
  intros e H. apply build_loop_raises in H. tauto.
Qed.

(** ** What each stage can raise *)

Section Construction.
Variable cell : Type.
Variable rawdataset : option (TSDataset cell).
Variables in_len out_len skip_len stride : Z.
Variable time_window : option (Z * Z).

Implicit Types (ds : TSDataset cell) (target : TimeSeries cell) (w : Z * Z).

Local Abbreviation min_allowed :=
  (_compute_min_allowed_window in_len skip_len out_len).
Local Abbreviation init :=
  (__init__ rawdataset in_len out_len skip_len stride time_window).
Local Abbreviation validate :=
  (validate_before_observed_cov rawdataset in_len out_len skip_len stride
     time_window).

Local Abbreviation self0 :=
  (self_before_build in_len out_len skip_len stride).

Lemma check_arguments_raises :
  raises_only
    (fun e => exists v, e = ValidationError v /\
       (v = NullDatasetError \/ v = NullTargetError \/ v = EmptyTargetError \/
        v = InvalidChunkLengthError \/ v = InvalidStrideError))
    (check_arguments rawdataset in_len out_len skip_len stride).
Proof.
  unfold check_arguments. raises_only_step; eexists; split; eauto 6.
Qed.

Lemma resolve_time_window_raises target :
  raises_only (fun e => e = ValidationError TargetTooShortError)
    (resolve_time_window in_len out_len skip_len time_window target).
Proof. unfold resolve_time_window. raises_only_step; reflexivity. Qed.

Lemma check_target_length_raises target w :
  raises_only
    (fun e => e = IndexError \/ e = ValidationError TargetTooShortError)
    (check_target_length in_len out_len skip_len target w).
Proof. unfold check_target_length. raises_only_step; auto. Qed.

Lemma check_known_cov_raises ds target w mts :
  raises_only
    (fun e => e = IndexError \/ e = KeyError \/
       e = ValidationError KnownCovTimestampTooEarlyError \/
       e = ValidationError KnownCovInsufficientError)
    (check_known_cov ds target w mts).
Proof. unfold check_known_cov. raises_only_step; auto. Qed.

Lemma check_observed_cov_raises ds target w mts :
  raises_only
    (fun e => e = IndexError \/
       e = ValidationError ObservedCovTimestampTooEarlyError)
    (check_observed_cov out_len skip_len ds target w mts).
Proof. unfold check_observed_cov. raises_only_step; auto. Qed.

Lemma validate_ok ds target w mts :
  validate = Ok (ds, target, w, mts) <->
  check_arguments rawdataset in_len out_len skip_len stride = Ok (ds, target) /\
  resolve_time_window in_len out_len skip_len time_window target = Ok w /\
  check_window_bounds in_len out_len skip_len target w = Ok tt /\
  check_target_length in_len out_len skip_len target w = Ok mts /\
  check_known_cov ds target w mts = Ok tt.
Proof.
  unfold validate_before_observed_cov. split.
  - intros H. inv_ok. inv_tuples. inv_ok. inv_tuples. auto.
  - intros (H1 & H2 & H3 & H4 & H5).
    rewrite H1. simpl. rewrite H2. simpl. rewrite H3. simpl.
    rewrite H4. simpl. rewrite H5. reflexivity.
Qed.

Lemma init_ok d :
  init = Ok d <->
  exists ds target w mts samples,
    validate = Ok (ds, target, w, mts) /\
    check_observed_cov out_len skip_len ds target w mts = Ok tt /\
    _build_samples (self0 ds w) = Ok samples /\
    d = set_samples (self0 ds w) samples.
Proof.
  unfold __init__. split.
  - intros H. inv_ok. inv_tuples. inv_ok. inv_tuples. eauto 10.
  - intros (ds & target & w & mts & samples & H1 & H2 & H3 & ->).
    rewrite H1. simpl. rewrite H2. simpl. rewrite H3. reflexivity.
Qed.

(** The facts [__init__] has established when it returns. *)
Lemma init_ok_facts d :
  init = Ok d ->
  exists ds target mts,
    rawdataset = Some ds /\ get_target ds = Some target /\
    _rawdataset d = ds /\
    _target_in_chunk_len d = in_len /\ _target_out_chunk_len d = out_len /\
    _target_skip_chunk_len d = skip_len /\ _sampling_stride d = stride /\
    _known_cov_chunk_len d = in_len + out_len /\
    _observed_cov_chunk_len d = Z.max 1 in_len /\
    1 <= Py.len (time_index target) /\
    0 <= in_len /\ 0 <= skip_len /\ 0 < out_len /\ 0 < stride /\
    resolve_time_window in_len out_len skip_len time_window target
      = Ok (_time_window d) /\
    min_allowed <= fst (_time_window d) /\
    snd (_time_window d) <= max_allowed_window out_len skip_len target /\
    check_target_length in_len out_len skip_len target (_time_window d)
      = Ok mts /\
    check_known_cov ds target (_time_window d) mts = Ok tt /\
    check_observed_cov out_len skip_len ds target (_time_window d) mts
      = Ok tt /\
    build_loop (self0 ds (_time_window d)) target
      (Z.to_nat (snd (_time_window d) - fst (_time_window d) + 1))
      (fst (_time_window d)) = Ok (_samples d).
Proof.
  intros H. apply init_ok in H.
  destruct H as (ds & target & w & mts & samples & H1 & H2 & H3 & ->).
  apply validate_ok in H1. destruct H1 as (A1 & A2 & A3 & A4 & A5).
  apply check_arguments_ok in A1.
  destruct A1 as (B1 & B2 & B3 & B4 & B5 & B6 & B7).
  apply check_window_bounds_ok in A3. destruct A3 as [C1 C2].
  exists ds, target, mts. simpl.
  unfold _build_samples in H3. simpl in H3. rewrite B2 in H3.
  destruct w as [lower upper_]. simpl in *.
  repeat split; auto.
  destruct (Z.eqb_spec in_len 0); lia.
Qed.

Lemma validate_terminates : terminates validate.
Proof.
  unfold validate_before_observed_cov, check_arguments, resolve_time_window,
    check_window_bounds, check_target_length, check_known_cov.
  terminates_step.
Qed.

(** [__init__] always returns or raises: the bound on the loop of
    [_build_samples] is never what stops it. *)
Lemma init_terminates : terminates init.
Proof.
  unfold __init__.
  destruct validate as [[[[ds target] w] mts]| |] eqn:Ev; simpl.
  - apply terminates_bind;
      [unfold check_observed_cov; terminates_step|intros _].
    apply terminates_bind; [|intros l; apply terminates_Ok].
    apply _build_samples_terminates. simpl.
    apply validate_ok in Ev. destruct Ev as (Ev & _).
    apply check_arguments_ok in Ev. tauto.
  - apply terminates_Raise.
  - exfalso. now apply validate_terminates.
Qed.

(** The stage of [__init__] that raised. *)
Lemma init_raise e :
  init = Raise e ->
  check_arguments rawdataset in_len out_len skip_len stride = Raise e \/
  exists ds target,
    check_arguments rawdataset in_len out_len skip_len stride = Ok (ds, target) /\
    (resolve_time_window in_len out_len skip_len time_window target = Raise e \/
     exists w,
       resolve_time_window in_len out_len skip_len time_window target = Ok w /\
       (check_window_bounds in_len out_len skip_len target w = Raise e \/
        exists mts,
          check_window_bounds in_len out_len skip_len target w = Ok tt /\
          (check_target_length in_len out_len skip_len target w = Raise e \/
           check_target_length in_len out_len skip_len target w = Ok mts /\
           (check_known_cov ds target w mts = Raise e \/
            check_known_cov ds target w mts = Ok tt /\
            (check_observed_cov out_len skip_len ds target w mts = Raise e \/
             check_observed_cov out_len skip_len ds target w mts = Ok tt /\
             _build_samples (self0 ds w) = Raise e))))).
Proof.
  unfold __init__, validate_before_observed_cov. intros H.
  destruct (check_arguments rawdataset in_len out_len skip_len stride)
    as [[ds target]| |]; simpl in H; [|left; congruence|discriminate].
  right. exists ds, target. split; [reflexivity|].
  destruct (resolve_time_window in_len out_len skip_len time_window target)
    as [w| |]; simpl in H; [|left; congruence|discriminate].
  right. exists w. split; [reflexivity|].
  destruct (check_window_bounds in_len out_len skip_len target w)
    as [[]| |]; simpl in H; [|left; congruence|discriminate].
  destruct (check_target_length in_len out_len skip_len target w)
    as [mts| |]; simpl in H;
    [|right; exists 0; split; [reflexivity|left; congruence]|discriminate].
  right. exists mts. split; [reflexivity|]. right. split; [reflexivity|].
  destruct (check_known_cov ds target w mts)
    as [[]| |]; simpl in H; [|left; congruence|discriminate].
  right. split; [reflexivity|].
  destruct (check_observed_cov out_len skip_len ds target w mts)
    as [[]| |]; simpl in H; [|left; congruence|discriminate].
  right. split; [reflexivity|].
  destruct (_build_samples (self0 ds w)); simpl in H; congruence.
Qed.

End Construction.

(** * The claims of the specification *)

Section Claims.
Variable cell : Type.
Implicit Types (ds : TSDataset cell) (target : TimeSeries cell).
Implicit Types (d : MLDataset cell) (sample : Sample cell).

Lemma len_time_index target :
  Py.len (time_index target) = Py.len (data target).
Proof. unfold time_index, Py.len. now rewrite length_map. Qed.

Lemma len_to_numpy target :
  Py.len (to_numpy target) = Py.len (time_index target).
Proof. unfold to_numpy, time_index, Py.len. now rewrite !length_map. Qed.

(** C4: when the caller passes no [time_window] and the construction
    succeeds, the window of the dataset is
    [(max(1, in_chunk_len) + skip_chunk_len + out_chunk_len - 1,
      len(target) - 1)]. *)
Theorem default_time_window :
  forall rawdataset in_chunk_len out_chunk_len skip_chunk_len sampling_stride d,
    __init__ rawdataset in_chunk_len out_chunk_len skip_chunk_len
      sampling_stride None = Ok d ->
    exists target,
      get_target (_rawdataset d) = Some target /\
      _time_window d =
        (Z.max 1 in_chunk_len + skip_chunk_len + out_chunk_len - 1,
         Py.len (time_index target) - 1).
Proof.
  intros rd i o s st d H. apply init_ok_facts in H.
  destruct H as (ds & target & mts & F).
  decompose [and] F. clear F. subst.
  exists target. split; [assumption|].
  match goal with
  | H : resolve_time_window _ _ _ None _ = Ok _ |- _ =>
      apply resolve_time_window_ok in H; destruct H as [_ ->]
  end.
  reflexivity.
Qed.


(** C9, amended: for every constructed dataset, [get(index)] returns the
    [index]-th sample when [0 <= index < length()], the
    [(length() + index)]-th sample when [-length() <= index < 0], and fails
    with an out-of-range error for every other index. *)
Theorem getitem_of_constructed_dataset :
  forall rawdataset in_chunk_len out_chunk_len skip_chunk_len sampling_stride
         time_window d,
    __init__ rawdataset in_chunk_len out_chunk_len skip_chunk_len
      sampling_stride time_window = Ok d ->
    forall idx,
      (0 <= idx < __len__ d ->
       exists sample,
         nth_error (_samples d) (Z.to_nat idx) = Some sample /\
         __getitem__ d idx = Ok sample) /\
      (- __len__ d <= idx < 0 ->
       exists sample,
         nth_error (_samples d) (Z.to_nat (__len__ d + idx)) = Some sample /\
         __getitem__ d idx = Ok sample) /\
      (idx < - __len__ d \/ __len__ d <= idx ->
       __getitem__ d idx = Raise IndexError).
Proof.
  intros rd i o s st tw d _ idx. unfold __getitem__, __len__, index_or_raise.
  repeat split.
  - intros H. rewrite getitem_nonneg by lia.
    destruct (nth_error (_samples d) (Z.to_nat idx)) as [sample|] eqn:E.
    + eauto.
    + apply nth_error_None in E. unfold Py.len in H. lia.
  - intros H. rewrite getitem_negative by lia.
    destruct (nth_error (_samples d) (Z.to_nat (Py.len (_samples d) + idx)))
      as [sample|] eqn:E.
    + eauto.
    + apply nth_error_None in E. unfold Py.len in *. lia.
  - intros H. rewrite getitem_out_of_range by lia. reflexivity.
Qed.

(** C10, amended: for every dataset with a target, valid scalar parameters
    and a caller-supplied window [(lower, upper)] with
    [lower >= min_allowed_window], [upper <= max_allowed_window] and
    [upper < lower], for which the checks of the target length and of the
    covariates pass, the construction raises no error (that
    [lower <= upper] is not checked) and [length()] is 0. *)
Theorem inverted_window_builds_nothing :
  forall ds target in_chunk_len out_chunk_len skip_chunk_len sampling_stride
         lower upper mts,
    get_target ds = Some target ->
    1 <= Py.len (time_index target) ->
    0 <= in_chunk_len -> 0 <= skip_chunk_len ->
    0 < out_chunk_len -> 0 < sampling_stride ->
    _compute_min_allowed_window in_chunk_len skip_chunk_len out_chunk_len
      <= lower ->
    upper <= max_allowed_window out_chunk_len skip_chunk_len target ->
    upper < lower ->
    check_target_length in_chunk_len out_chunk_len skip_chunk_len target
      (lower, upper) = Ok mts ->
    check_known_cov ds target (lower, upper) mts = Ok tt ->
    check_observed_cov out_chunk_len skip_chunk_len ds target (lower, upper) mts
      = Ok tt ->
    exists d,
      __init__ (Some ds) in_chunk_len out_chunk_len skip_chunk_len
        sampling_stride (Some (lower, upper)) = Ok d /\
      _time_window d = (lower, upper) /\
      __len__ d = 0.
Proof.
  intros ds target i o s st lower upper mts Ht Hlen Hi Hs Ho Hst Hlo Hup Hinv
    Htl Hk Hob.
  eexists. split; [|split].
  - apply init_ok. exists ds, target, (lower, upper), mts, [].
    split; [|split; [exact Hob|split; [|reflexivity]]].
    + apply validate_ok. repeat split; try assumption.
      * apply check_arguments_ok. auto 10.
      * apply check_window_bounds_ok. auto.
    + unfold _build_samples. simpl. rewrite Ht.
      replace (Z.to_nat (upper - lower + 1)) with O by lia. simpl.
      destruct (Z.leb_spec lower upper); [lia|reflexivity].
  - reflexivity.
  - reflexivity.
Qed.

(** C8, amended: for a dataset with a non-empty target and valid scalar
    parameters, the construction fails with a window-bound error if and only
    if a caller-supplied window has [lower < min_allowed_window] or
    [upper > max_allowed_window]; and the window of every constructed
    dataset satisfies [lower >= min_allowed_window] and
    [upper <= max_allowed_window]. *)
Theorem window_bound_errors :
  forall ds target in_chunk_len out_chunk_len skip_chunk_len sampling_stride
         time_window,
    get_target ds = Some target ->
    1 <= Py.len (time_index target) ->
    0 <= in_chunk_len -> 0 <= skip_chunk_len ->
    0 < out_chunk_len -> 0 < sampling_stride ->
    let min_allowed :=
      _compute_min_allowed_window in_chunk_len skip_chunk_len out_chunk_len in
    let max_allowed :=
      Py.len (time_index target) - 1 + skip_chunk_len + out_chunk_len in
    let init :=
      __init__ (Some ds) in_chunk_len out_chunk_len skip_chunk_len
        sampling_stride time_window in
    ((exists v, window_bound_error v /\ init = Raise (ValidationError v)) <->
     (exists lower upper,
        time_window = Some (lower, upper) /\
        (lower < min_allowed \/ upper > max_allowed))) /\
    (forall d,
       init = Ok d ->
       min_allowed <= fst (_time_window d) /\
       snd (_time_window d) <= max_allowed).
Proof.
  intros ds target i o s st tw Ht Hlen Hi Hs Ho Hst min_allowed max_allowed init.
  assert (Hargs : check_arguments (Some ds) i o s st = Ok (ds, target))
    by (apply check_arguments_ok; auto 10).
  assert (Hmax : max_allowed_window o s target = max_allowed)
    by (unfold max_allowed_window, max_allowed; rewrite len_time_index; lia).
  split; [split|].
  - intros (v & Hv & H). apply init_raise in H.
    destruct H as
      [E|(ds' & target' & E1 &
          [E|(w & E2 &
              [E|(mts & E3 &
                  [E|(E4 & [E|(E5 & [E|(E6 & E)])])])])])].
    + congruence.
    + apply resolve_time_window_raises in E.
      destruct Hv; congruence.
    + rewrite Hargs in E1. injection E1 as <- <-.
      apply resolve_time_window_ok in E2.
      unfold check_window_bounds in E. apply bind_raise in E.
      rewrite Hmax in E. fold min_allowed in E.
      assert (Hw : fst w < min_allowed \/ snd w > max_allowed).
      { destruct E as [E|(u & _ & E)]; apply raise_if_raise in E;
          destruct E as [E _].
        - apply Z.ltb_lt in E. auto.
        - rewrite Z.gtb_ltb in E. apply Z.ltb_lt in E. right. lia. }
      destruct tw as [[lower upper]|].
      * subst w. exists lower, upper. auto.
      * destruct E2 as [_ ->]. simpl in Hw. fold min_allowed in Hw.
        unfold max_allowed in Hw. lia.
    + apply check_target_length_raises in E.
      destruct Hv, E; congruence.
    + apply check_known_cov_raises in E.
      destruct Hv, E as [E|[E|[E|E]]]; congruence.
    + apply check_observed_cov_raises in E.
      destruct Hv, E; congruence.
    + apply _build_samples_raises in E.
      destruct Hv, E as [E|[E|E]]; congruence.
  - intros (lower & upper & -> & Hw).
    unfold init, __init__, validate_before_observed_cov.
    rewrite Hargs. simpl. unfold check_window_bounds. simpl.
    rewrite Hmax. fold min_allowed.
    destruct (Z.ltb_spec lower min_allowed) as [Hlt|Hge]; simpl.
    + exists WindowLowerBoundError. split; [left|]; reflexivity.
    + rewrite Z.gtb_ltb.
      destruct (Z.ltb_spec max_allowed upper) as [Hlt'|Hge']; simpl; [|lia].
      exists WindowUpperBoundError. split; [right|]; reflexivity.
  - intros d H. apply init_ok_facts in H.
    destruct H as (ds' & target' & mts & F). decompose [and] F. clear F.
    assert (target' = target) by congruence. subst target'.
    rewrite Hmax in *. auto.
Qed.

(** ** The samples of a constructed dataset *)

Lemma build_sample_ok (self : MLDataset cell) target t sample :
  build_sample self target t = Ok sample ->
  future_target sample =
    (if t >? Py.len (time_index target) - 1
     then empty_ndarray cell
     else Py.slice (to_numpy target)
            (t - _target_out_chunk_len self + 1) (t + 1)) /\
  past_target sample =
    (if _target_in_chunk_len self =? 0
     then empty_ndarray cell
     else Py.slice (to_numpy target)
            (t - _target_out_chunk_len self - _target_skip_chunk_len self
             - _target_in_chunk_len self + 1)
            (t - _target_out_chunk_len self - _target_skip_chunk_len self + 1)) /\
  build_known_cov self target t = Ok (known_cov sample) /\
  build_observed_cov self target
    (t - _target_out_chunk_len self - _target_skip_chunk_len self)
    = Ok (observed_cov sample).
Proof.
  unfold build_sample. cbv zeta. intros H.
  apply bind_ok in H. destruct H as (known & Hk & H).
  apply bind_ok in H. destruct H as (observed & Ho & H).
  injection H as <-. simpl. auto.
Qed.

(** The [n]-th sample of a constructed dataset is built at the tail
    [lower + n * stride], which lies between the two allowed bounds. *)
Lemma produced_sample rawdataset in_len out_len skip_len stride time_window
  d n sample :
  __init__ rawdataset in_len out_len skip_len stride time_window = Ok d ->
  nth_error (_samples d) n = Some sample ->
  exists ds target,
    _rawdataset d = ds /\ get_target ds = Some target /\
    1 <= Py.len (time_index target) /\
    0 <= in_len /\ 0 <= skip_len /\ 0 < out_len /\ 0 < stride /\
    Z.max 1 in_len + skip_len + out_len - 1
      <= fst (_time_window d) + Z.of_nat n * stride /\
    fst (_time_window d) + Z.of_nat n * stride
      <= Py.len (time_index target) - 1 + skip_len + out_len /\
    build_sample (self_before_build in_len out_len skip_len stride ds
                    (_time_window d)) target
      (fst (_time_window d) + Z.of_nat n * stride) = Ok sample.
Proof.
  intros H Hn. apply init_ok_facts in H.
  destruct H as (ds & target & mts & F). decompose [and] F. clear F.
  match goal with
  | H : build_loop _ _ _ _ = Ok _ |- _ =>
      destruct (build_loop_nth _ _ _ _ H _ Hn) as [Hup Hb]
  end.
  simpl in Hup, Hb.
  exists ds, target. repeat split; try assumption.
  - unfold _compute_min_allowed_window in *. nia.
  - unfold max_allowed_window in *. rewrite len_time_index. lia.
Qed.

(** C3: for every sample of a constructed dataset, with tail [t]:
    [future_target] has [out_chunk_len] rows when [t <= len(target) - 1] and
    no row when [t > len(target) - 1]; [past_target] has no row if and only
    if [in_chunk_len] is 0, and [in_chunk_len] rows otherwise. *)
Theorem target_chunk_rows :
  forall rawdataset in_chunk_len out_chunk_len skip_chunk_len sampling_stride
         time_window d target n sample,
    __init__ rawdataset in_chunk_len out_chunk_len skip_chunk_len
      sampling_stride time_window = Ok d ->
    get_target (_rawdataset d) = Some target ->
    nth_error (_samples d) n = Some sample ->
    let t := fst (_time_window d) + Z.of_nat n * sampling_stride in
    (t <= Py.len (time_index target) - 1 ->
     Py.len (future_target sample) = out_chunk_len) /\
    (t > Py.len (time_index target) - 1 ->
     Py.len (future_target sample) = 0) /\
    (Py.len (past_target sample) = 0 <-> in_chunk_len = 0) /\
    (in_chunk_len <> 0 -> Py.len (past_target sample) = in_chunk_len).
Proof.
  intros rd i o s st tw d target n sample H Ht Hn t.
  destruct (@produced_sample _ _ _ _ _ _ _ _ _ H Hn)
    as (ds & target' & Hds & Ht' & Hlen & Hi & Hs & Ho & Hst & Hlo & Hup & Hb).
  rewrite Hds in Ht. assert (target' = target) by congruence. subst target'.
  fold t in Hlo, Hup, Hb.
  apply build_sample_ok in Hb. simpl in Hb.
  destruct Hb as (Hfuture & Hpast & _ & _).
  rewrite Hfuture, Hpast. rewrite Z.gtb_ltb.
  assert (Hpast_len :
    0 < i ->
    Py.len (Py.slice (to_numpy target) (t - o - s - i + 1) (t - o - s + 1)) = i).
  { intros Hpos.
    rewrite len_slice_within; rewrite ?len_to_numpy; lia. }
  repeat split.
  - intros Hle. destruct (Z.ltb_spec (Py.len (time_index target) - 1) t); [lia|].
    rewrite len_slice_within; rewrite ?len_to_numpy; lia.
  - intros Hgt. destruct (Z.ltb_spec (Py.len (time_index target) - 1) t); [|lia].
    reflexivity.
  - destruct (Z.eqb_spec i 0); [auto|]. intros E. rewrite Hpast_len in E; lia.
  - intros ->. reflexivity.
  - intros Hne. destruct (Z.eqb_spec i 0); [contradiction|]. apply Hpast_len. lia.
Qed.

(** The known covariate chunk in terms of its right tail. *)
Lemma build_known_cov_ok (self : MLDataset cell) target known t chunk :
  get_known_cov (_rawdataset self) = Some known ->
  0 <= t ->
  build_known_cov self target t = Ok chunk ->
  exists right_tail,
    (t <= Py.len (time_index target) - 1 ->
     exists ts,
       timestamp_at (time_index target) t = Some ts /\
       position_of (time_index known) ts = Some right_tail) /\
    (t > Py.len (time_index target) - 1 ->
     exists ts p,
       last_timestamp (time_index target) = Some ts /\
       position_of (time_index known) ts = Some p /\
       right_tail =
         p + _target_skip_chunk_len self + _target_out_chunk_len self) /\
    chunk =
      Py.slice (to_numpy known)
        (right_tail - _target_out_chunk_len self - _target_skip_chunk_len self
         - _target_in_chunk_len self + 1)
        (right_tail - _target_out_chunk_len self - _target_skip_chunk_len self
         + 1)
      ++ Py.slice (to_numpy known)
           (right_tail - _target_out_chunk_len self + 1) (right_tail + 1).
Proof.
  intros Hk Ht H. unfold build_known_cov in H. rewrite Hk in H. cbv zeta in H.
  apply bind_ok in H. destruct H as (right_tail & Hrt & H).
  injection H as <-. exists right_tail. rewrite Z.gtb_ltb in Hrt.
  destruct (Z.ltb_spec (Py.len (time_index target) - 1) t) as [Hgt|Hle].
  - apply bind_ok in Hrt. destruct Hrt as (ts & Hts & Hrt).
    apply bind_ok in Hrt. destruct Hrt as (p & Hp & Hrt).
    injection Hrt as <-.
    apply index_or_raise_ok in Hts. rewrite last_timestamp_getitem in Hts.
    apply get_loc_ok in Hp.
    split; [lia|]. split; [|reflexivity].
    intros _. exists ts, p. auto.
  - apply bind_ok in Hrt. destruct Hrt as (ts & Hts & Hrt).
    apply index_or_raise_ok in Hts. rewrite getitem_nonneg in Hts by lia.
    apply get_loc_ok in Hrt.
    split; [|split; [lia|reflexivity]].
    intros _. exists ts. split; [|assumption].
    unfold timestamp_at. destruct (Z.ltb_spec t 0); [lia|assumption].
Qed.

(** The known covariate chunk where its rows exist: with [right_tail] the
    row of the target timestamp at [t] in the index of [known_cov] when
    [t <= len(target) - 1], and the row of the last target timestamp in that
    index plus [skip_chunk_len + out_chunk_len] when [t > len(target) - 1],
    the chunk is the concatenation of the two numpy slices with the bounds
    [right_tail - out_chunk_len - skip_chunk_len - in_chunk_len + 1 ..
     right_tail - out_chunk_len - skip_chunk_len] and
    [right_tail - out_chunk_len + 1 .. right_tail], which are these rows of
    [known_cov] whenever the rows exist. *)
Theorem known_cov_chunk_is_left_then_right :
  forall rawdataset in_chunk_len out_chunk_len skip_chunk_len sampling_stride
         time_window d target known n sample,
    __init__ rawdataset in_chunk_len out_chunk_len skip_chunk_len
      sampling_stride time_window = Ok d ->
    get_target (_rawdataset d) = Some target ->
    get_known_cov (_rawdataset d) = Some known ->
    nth_error (_samples d) n = Some sample ->
    let t := fst (_time_window d) + Z.of_nat n * sampling_stride in
    exists right_tail,
      (t <= Py.len (time_index target) - 1 ->
       exists ts,
         timestamp_at (time_index target) t = Some ts /\
         position_of (time_index known) ts = Some right_tail) /\
      (t > Py.len (time_index target) - 1 ->
       exists ts p,
         last_timestamp (time_index target) = Some ts /\
         position_of (time_index known) ts = Some p /\
         right_tail = p + skip_chunk_len + out_chunk_len) /\
      known_cov sample =
        Py.slice (to_numpy known)
          (right_tail - out_chunk_len - skip_chunk_len - in_chunk_len + 1)
          (right_tail - out_chunk_len - skip_chunk_len + 1)
        ++ Py.slice (to_numpy known)
             (right_tail - out_chunk_len + 1) (right_tail + 1) /\
      forall left right,
        rows_between (to_numpy known)
          (right_tail - out_chunk_len - skip_chunk_len - in_chunk_len + 1)
          (right_tail - out_chunk_len - skip_chunk_len) = Some left ->
        rows_between (to_numpy known)
          (right_tail - out_chunk_len + 1) right_tail = Some right ->
        known_cov sample = left ++ right.
Proof.
  intros rd i o s st tw d target known n sample H Ht Hk Hn t.
  destruct (@produced_sample _ _ _ _ _ _ _ _ _ H Hn)
    as (ds & target' & Hds & Ht' & Hlen & Hi & Hs & Ho & Hst & Hlo & Hup & Hb).
  rewrite Hds in Ht, Hk. assert (target' = target) by congruence. subst target'.
  fold t in Hlo, Hup, Hb.
  apply build_sample_ok in Hb. destruct Hb as (_ & _ & Hb & _).
  apply (@build_known_cov_ok _ target known) in Hb; [|exact Hk|lia].
  simpl in Hb. destruct Hb as (right_tail & Hle & Hgt & Hchunk).
  exists right_tail. split; [exact Hle|]. split; [exact Hgt|].
  split; [exact Hchunk|].
  intros left right Hl Hr.
  apply rows_between_slice in Hl, Hr. rewrite Hchunk.
  rewrite Hl, Hr. reflexivity.
Qed.

(** ** The checks on the covariates *)




Lemma check_window_bounds_raises in_len out_len skip_len target w :
  raises_only
    (fun e => exists v, e = ValidationError v /\ window_bound_error v)
    (check_window_bounds in_len out_len skip_len target w).
Proof.
  unfold check_window_bounds, window_bound_error.
  raises_only_step; eexists; split; eauto.
Qed.

(** The check of the known covariate when the window reaches past the
    target: the covariate ends before the target, or the outcome is that of
    the comparison of the rows from [idx] on with the exceeded steps. *)
Lemma check_known_cov_inference ds target known lower upper tlast idx :
  get_known_cov ds = Some known ->
  upper > Py.len (time_index target) - 1 ->
  position_of (time_index known) tlast = Some idx ->
  check_known_cov ds target (lower, upper) tlast
    = Raise (ValidationError KnownCovTimestampTooEarlyError) \/
  check_known_cov ds target (lower, upper) tlast
    = raise_if
        (Py.len (Py.slice_from (to_numpy known) idx)
           <=? upper - (Py.len (time_index target) - 1))
        KnownCovInsufficientError.
Proof.
  intros Hk Hup Hidx. unfold check_known_cov. rewrite Hk. simpl.
  rewrite Z.gtb_ltb.
  destruct (Z.ltb_spec (Py.len (time_index target) - 1) upper); [|lia].
  destruct (position_of_range _ _ Hidx) as [Hrange _].
  destruct (@getitem_in_range _ (time_index known) (Py.len (time_index known) - 1))
    as [klast Hklast]; [lia|].
  rewrite last_timestamp_getitem_len, <- last_timestamp_getitem in Hklast.
  cbv iota. unfold index_or_raise. rewrite Hklast. simpl.
  destruct (klast <? tlast); simpl; [left; reflexivity|right].
  apply get_loc_ok in Hidx. rewrite Hidx. simpl.
  rewrite !len_slice_from by (rewrite ?len_to_numpy; lia).
  now rewrite len_to_numpy.
Qed.


Lemma check_observed_cov_raise out_len skip_len ds target observed w tlast :
  get_observed_cov ds = Some observed ->
  last_timestamp (time_index target) = Some tlast ->
  check_observed_cov out_len skip_len ds target w tlast
    = Raise (ValidationError ObservedCovTimestampTooEarlyError) <->
  observed_cov_too_early target observed skip_len out_len (snd w).
Proof.
  intros Hobs Hl. unfold check_observed_cov, observed_cov_too_early.
  rewrite Hobs, Z.gtb_ltb. unfold index_or_raise.
  rewrite last_timestamp_getitem.
  destruct (Z.ltb_spec (Py.len (time_index target) - 1) (snd w)) as [Hgt|Hle].
  - split.
    + intros H. right. split; [lia|].
      destruct (last_timestamp (time_index observed)) as [olast|];
        [|discriminate].
      simpl in H. apply raise_if_raise in H. destruct H as [H _].
      apply Z.ltb_lt in H. eauto.
    + intros [[Hle _]|(_ & tlast' & olast & H1 & H2 & H3)]; [lia|].
      rewrite H2. simpl. assert (tlast' = tlast) by congruence. subst tlast'.
      apply Z.ltb_lt in H3. rewrite H3. reflexivity.
  - split.
    + intros H. left. split; [lia|].
      destruct (Py.getitem (time_index target) (snd w - skip_len - out_len))
        as [ts|]; [|discriminate].
      simpl in H.
      destruct (last_timestamp (time_index observed)) as [olast|];
        [|discriminate].
      simpl in H. apply raise_if_raise in H. destruct H as [H _].
      apply Z.ltb_lt in H. eauto.
    + intros [(_ & ts & olast & H1 & H2 & H3)|[Hgt _]]; [|lia].
      rewrite H1. simpl. rewrite H2. simpl.
      apply Z.ltb_lt in H3. rewrite H3. reflexivity.
Qed.

(** C7, amended: when an observed covariate is present and all the checks
    that come before its own pass, the construction raises a validation
    error if and only if: the window lies within the target
    ([upper <= len(target) - 1]) and the last observed timestamp is earlier
    than the target timestamp at the Python index
    [upper - skip_chunk_len - out_chunk_len], or the window reaches past the
    target ([upper > len(target) - 1]) and the last observed timestamp is
    earlier than the last target timestamp; the error is then the one of the
    observed covariate. *)
Theorem observed_cov_validation :
  forall rawdataset in_chunk_len out_chunk_len skip_chunk_len sampling_stride
         time_window ds target w tlast observed,
    validate_before_observed_cov rawdataset in_chunk_len out_chunk_len
      skip_chunk_len sampling_stride time_window = Ok (ds, target, w, tlast) ->
    get_observed_cov ds = Some observed ->
    let init :=
      __init__ rawdataset in_chunk_len out_chunk_len skip_chunk_len
        sampling_stride time_window in
    ((exists v, init = Raise (ValidationError v)) <->
     observed_cov_too_early target observed skip_chunk_len out_chunk_len
       (snd w)) /\
    (forall v,
       init = Raise (ValidationError v) ->
       v = ObservedCovTimestampTooEarlyError).
Proof.
  intros rd i o s st tw ds target w tlast observed Hv Hobs init.
  assert (Hl : last_timestamp (time_index target) = Some tlast).
  { apply validate_ok in Hv. destruct Hv as (_ & _ & _ & H & _).
    apply check_target_length_ok in H. tauto. }
  rewrite <- (@check_observed_cov_raise o s ds target observed w tlast Hobs Hl).
  unfold init, __init__. rewrite Hv. simpl.
  destruct (check_observed_cov o s ds target w tlast) as [[]|e|] eqn:E; simpl.
  - assert (Hbuild : forall v,
      (samples <- _build_samples (self_before_build i o s st ds w) ;;
       Ok (set_samples (self_before_build i o s st ds w) samples))
        <> Raise (ValidationError v)).
    { intros v H.
      destruct (_build_samples (self_before_build i o s st ds w)) eqn:Eb;
        simpl in H; try discriminate.
      apply _build_samples_raises in Eb. injection H as ->.
      destruct Eb as [Eb|[Eb|Eb]]; discriminate. }
    split; [split|].
    + intros (v & H). now apply Hbuild in H.
    + discriminate.
    + intros v H. now apply Hbuild in H.
  - apply check_observed_cov_raises in E. destruct E as [->| ->].
    + split; [split|].
      * intros (v & H). discriminate.
      * discriminate.
      * intros v H. discriminate.
    + split; [split|].
      * reflexivity.
      * intros _. eauto.
      * intros v [= <-]. reflexivity.
  - split; [split|].
    + intros (v & H). discriminate.
    + discriminate.
    + intros v H. discriminate.
Qed.

(** ** The covariate chunks when their rows exist

    The row counts that the docstring of [_build_samples] gives hold for a
    covariate chunk whose slices lie within the covariate, and for an absent
    covariate. *)

Lemma known_cov_rows_in_range (self : MLDataset cell) target known t chunk :
  get_known_cov (_rawdataset self) = Some known ->
  0 <= t ->
  0 <= _target_in_chunk_len self ->
  0 <= _target_skip_chunk_len self ->
  0 < _target_out_chunk_len self ->
  build_known_cov self target t = Ok chunk ->
  exists right_tail,
    chunk =
      Py.slice (to_numpy known)
        (right_tail - _target_out_chunk_len self - _target_skip_chunk_len self
         - _target_in_chunk_len self + 1)
        (right_tail - _target_out_chunk_len self - _target_skip_chunk_len self
         + 1)
      ++ Py.slice (to_numpy known)
           (right_tail - _target_out_chunk_len self + 1) (right_tail + 1) /\
    (0 <= right_tail - _target_out_chunk_len self - _target_skip_chunk_len self
          - _target_in_chunk_len self + 1 ->
     right_tail + 1 <= Py.len (to_numpy known) ->
     Py.len chunk = _target_in_chunk_len self + _target_out_chunk_len self).
Proof.
  intros Hk Ht Hi Hs Ho H.
  destruct (build_known_cov_ok _ _ Hk Ht H) as (rt & _ & _ & ->).
  exists rt. split; [reflexivity|]. intros Hlo Hhi.
  unfold Py.len at 1. rewrite length_app, Nat2Z.inj_add.
  fold (Py.len (Py.slice (to_numpy known)
          (rt - _target_out_chunk_len self - _target_skip_chunk_len self
           - _target_in_chunk_len self + 1)
          (rt - _target_out_chunk_len self - _target_skip_chunk_len self + 1))).
  fold (Py.len (Py.slice (to_numpy known)
          (rt - _target_out_chunk_len self + 1) (rt + 1))).
  rewrite !len_slice_within by lia. lia.
Qed.

Lemma observed_cov_rows_in_range (self : MLDataset cell) target observed
  past_target_tail chunk :
  get_observed_cov (_rawdataset self) = Some observed ->
  0 < _observed_cov_chunk_len self ->
  build_observed_cov self target past_target_tail = Ok chunk ->
  exists ts observed_cov_tail,
    Py.getitem (time_index target) past_target_tail = Some ts /\
    position_of (time_index observed) ts = Some observed_cov_tail /\
    (_observed_cov_chunk_len self - 1 <= observed_cov_tail ->
     Py.len chunk = _observed_cov_chunk_len self).
Proof.
  intros Hobs Hlen H. unfold build_observed_cov in H. rewrite Hobs in H.
  apply bind_ok in H. destruct H as (ts & Hts & H).
  apply bind_ok in H. destruct H as (tail & Htail & H).
  injection H as <-.
  apply index_or_raise_ok in Hts. apply get_loc_ok in Htail.
  exists ts, tail. repeat split; try assumption.
  intros Hge. destruct (position_of_range _ _ Htail) as [Hrange _].
  rewrite len_slice_within; rewrite ?len_to_numpy; lia.
Qed.

Lemma absent_covariate_chunks rawdataset in_len out_len skip_len stride
  time_window d n sample :
  __init__ rawdataset in_len out_len skip_len stride time_window = Ok d ->
  nth_error (_samples d) n = Some sample ->
  (get_known_cov (_rawdataset d) = None -> Py.len (known_cov sample) = 0) /\
  (get_observed_cov (_rawdataset d) = None ->
   Py.len (observed_cov sample) = 0).
Proof.
  intros H Hn.
  destruct (@produced_sample _ _ _ _ _ _ _ _ _ H Hn)
    as (ds & target & Hds & _ & _ & _ & _ & _ & _ & _ & _ & Hb).
  apply build_sample_ok in Hb. destruct Hb as (_ & _ & Hk & Ho).
  rewrite Hds. split; intros Hnone.
  - unfold build_known_cov in Hk. simpl in Hk. rewrite Hnone in Hk.
    injection Hk as <-. reflexivity.
  - unfold build_observed_cov in Ho. simpl in Ho. rewrite Hnone in Ho.
    injection Ho as <-. reflexivity.
Qed.

End Claims.

(** * The claims on the examples *)

Import Examples.

(** The formula of the length is for windows with [lower <= upper]: the
    inverted window [(7, 4)] is accepted and no sample is built, where the
    formula would give [-2]. *)
Lemma length_formula_fails_on_inverted_window :
  exists d,
    __init__ (Some target_only8) 2 2 1 1 (Some (7, 4)) = Ok d /\
    _time_window d = (7, 4) /\
    __len__ d = 0 /\
    (4 - 7) / 1 + 1 = -2.
Proof.
  eexists. split; [vm_compute; reflexivity|]. repeat split.
Qed.


Lemma default_time_window_witness :
  exists d,
    __init__ (Some dataset8) 2 2 1 1 None = Ok d /\
    exists target,
      get_target (_rawdataset d) = Some target /\
      _time_window d = (Z.max 1 2 + 1 + 2 - 1, Py.len (time_index target) - 1).
Proof.
  eexists. split; [vm_compute; reflexivity|].
  apply (@default_time_window Z (Some dataset8) 2 2 1 1).
  vm_compute. reflexivity.
Defined.

(** C2 fails on the code: with the target at 8:00 .. 10:00, the known
    covariate at 7:00 .. 11:00, [in_chunk_len = 1], [skip_chunk_len = 0],
    [out_chunk_len = 2] and the window [(3, 3)], every check passes (one
    step is exceeded and two rows are left from the row of 10:00), and the
    right part of the chunk is cut at the end of the covariate: the sample
    has 2 rows of known covariate where [_known_cov_chunk_len] is 3. *)
Theorem known_cov_rows_short_of_chunk_len :
  exists d sample,
    __init__ (Some dataset3) 1 2 0 1 (Some (3, 3)) = Ok d /\
    _samples d = [sample] /\
    _known_cov_chunk_len d = 1 + 2 /\
    Py.len (known_cov sample) = 2.
Proof.
  do 2 eexists. split; [vm_compute; reflexivity|]. repeat split.
Qed.

(** The observed covariate chunk is short too when the covariate starts
    after the target: the slice bounds wrap around. *)
Lemma observed_cov_rows_short_of_chunk_len :
  exists d sample rest,
    __init__
      (Some (mkTSDataset (Some target8) None
               (Some (series [1; 2; 3; 4; 5; 6; 7] (fun t => [- t])))))
      2 2 1 1 (Some (4, 7)) = Ok d /\
    _samples d = sample :: rest /\
    _observed_cov_chunk_len d = 2 /\
    Py.len (observed_cov sample) = 0.
Proof.
  do 3 eexists. split; [vm_compute; reflexivity|]. repeat split.
Qed.

Lemma target_chunk_rows_witness :
  exists d target sample,
    __init__ (Some dataset8) 2 2 1 1 (Some (4, 7)) = Ok d /\
    get_target (_rawdataset d) = Some target /\
    nth_error (_samples d) 1 = Some sample /\
    ((fst (_time_window d) + Z.of_nat 1 * 1 <= Py.len (time_index target) - 1 ->
      Py.len (future_target sample) = 2) /\
     (fst (_time_window d) + Z.of_nat 1 * 1 > Py.len (time_index target) - 1 ->
      Py.len (future_target sample) = 0) /\
     (Py.len (past_target sample) = 0 <-> 2 = 0) /\
     (2 <> 0 -> Py.len (past_target sample) = 2)).
Proof.
  do 3 eexists.
  split; [vm_compute; reflexivity|].
  split; [vm_compute; reflexivity|].
  split; [vm_compute; reflexivity|].
  apply (@target_chunk_rows Z (Some dataset8) 2 2 1 1 (Some (4, 7)));
    vm_compute; reflexivity.
Defined.

Lemma known_cov_chunk_is_left_then_right_witness :
  exists d sample,
    __init__ (Some dataset8) 2 2 1 1 (Some (4, 7)) = Ok d /\
    get_target (_rawdataset d) = Some target8 /\
    get_known_cov (_rawdataset d) = Some known9 /\
    nth_error (_samples d) 1 = Some sample /\
    exists right_tail,
      (fst (_time_window d) + Z.of_nat 1 * 1 <= Py.len (time_index target8) - 1 ->
       exists ts,
         timestamp_at (time_index target8)
           (fst (_time_window d) + Z.of_nat 1 * 1) = Some ts /\
         position_of (time_index known9) ts = Some right_tail) /\
      (fst (_time_window d) + Z.of_nat 1 * 1 > Py.len (time_index target8) - 1 ->
       exists ts p,
         last_timestamp (time_index target8) = Some ts /\
         position_of (time_index known9) ts = Some p /\
         right_tail = p + 1 + 2) /\
      known_cov sample =
        Py.slice (to_numpy known9) (right_tail - 2 - 1 - 2 + 1)
          (right_tail - 2 - 1 + 1)
        ++ Py.slice (to_numpy known9) (right_tail - 2 + 1) (right_tail + 1) /\
      forall left right,
        rows_between (to_numpy known9) (right_tail - 2 - 1 - 2 + 1)
          (right_tail - 2 - 1) = Some left ->
        rows_between (to_numpy known9) (right_tail - 2 + 1) right_tail
          = Some right ->
        known_cov sample = left ++ right.
Proof.
  do 2 eexists.
  split; [vm_compute; reflexivity|].
  split; [vm_compute; reflexivity|].
  split; [vm_compute; reflexivity|].
  split; [vm_compute; reflexivity|].
  apply (@known_cov_chunk_is_left_then_right Z (Some dataset8) 2 2 1 1
           (Some (4, 7)));
    vm_compute; reflexivity.
Defined.

(** C7 as it is stated fails when an earlier check raises: with
    [in_chunk_len = -1] the construction raises a validation error although
    the observed covariate reaches the end of the target. *)
Lemma observed_cov_is_not_the_only_validation :
  get_observed_cov dataset8 = Some observed8 /\
  __init__ (Some dataset8) (-1) 2 1 1 (Some (4, 7))
    = Raise (ValidationError InvalidChunkLengthError) /\
  ~ observed_cov_too_early target8 observed8 1 2 7.
Proof.
  split; [reflexivity|]. split; [vm_compute; reflexivity|].
  unfold observed_cov_too_early.
  intros [(_ & ts & olast & H1 & H2 & H3)|(H & _)].
  - vm_compute in H1, H2. injection H1 as <-. injection H2 as <-. lia.
  - vm_compute in H. discriminate.
Qed.

Lemma observed_cov_validation_witness :
  validate_before_observed_cov (Some dataset8) 2 2 1 1 (Some (4, 7))
    = Ok (dataset8, target8, (4, 7), 7) /\
  get_observed_cov dataset8 = Some observed8 /\
  (((exists v,
       __init__ (Some dataset8) 2 2 1 1 (Some (4, 7))
         = Raise (ValidationError v)) <->
    observed_cov_too_early target8 observed8 1 2 (snd (4, 7))) /\
   (forall v,
      __init__ (Some dataset8) 2 2 1 1 (Some (4, 7))
        = Raise (ValidationError v) ->
      v = ObservedCovTimestampTooEarlyError)).
Proof.
  refine (conj _ (conj _
    (@observed_cov_validation Z (Some dataset8) 2 2 1 1 (Some (4, 7))
       dataset8 target8 (4, 7) 7 observed8 _ _)));
    vm_compute; reflexivity.
Defined.

(** C8 as it is stated fails when an earlier check raises: with
    [in_chunk_len = -1] the window [(0, 0)] lies below the lower bound and
    the error is the one of the chunk length. *)
Lemma window_errors_come_after_the_scalar_checks :
  ~ ((exists v, window_bound_error v /\
        __init__ (Some target_only8) (-1) 1 0 1 (Some (0, 0))
          = Raise (ValidationError v)) <->
     (exists lower upper,
        Some (0, 0) = Some (lower, upper) /\
        (lower < _compute_min_allowed_window (-1) 0 1 \/
         upper > Py.len (time_index target8) - 1 + 0 + 1))).
Proof.
  intros [_ H].
  destruct H as (v & Hv & E).
  - exists 0, 0. split; [reflexivity|]. left. vm_compute. reflexivity.
  - vm_compute in E. injection E as <-. destruct Hv; discriminate.
Qed.

Lemma window_bound_errors_witness :
  get_target dataset8 = Some target8 /\
  1 <= Py.len (time_index target8) /\
  0 <= 2 /\ 0 <= 1 /\ 0 < 2 /\ 0 < 1 /\
  (((exists v, window_bound_error v /\
       __init__ (Some dataset8) 2 2 1 1 (Some (3, 7))
         = Raise (ValidationError v)) <->
    (exists lower upper,
       Some (3, 7) = Some (lower, upper) /\
       (lower < _compute_min_allowed_window 2 1 2 \/
        upper > Py.len (time_index target8) - 1 + 1 + 2))) /\
   (forall d,
      __init__ (Some dataset8) 2 2 1 1 (Some (3, 7)) = Ok d ->
      _compute_min_allowed_window 2 1 2 <= fst (_time_window d) /\
      snd (_time_window d) <= Py.len (time_index target8) - 1 + 1 + 2)).
Proof.
  refine (conj _ (conj _ (conj _ (conj _ (conj _ (conj _
    (@window_bound_errors Z dataset8 target8 2 2 1 1 (Some (3, 7))
       _ _ _ _ _ _)))))));
    vm_compute; (reflexivity || discriminate).
Defined.

(** C9 as it is stated fails on the negative indices of Python: index [-1]
    lies outside [0 .. length() - 1] and returns the last sample. *)
Lemma getitem_accepts_negative_index :
  exists d sample,
    __init__ (Some dataset8) 2 2 1 1 (Some (4, 7)) = Ok d /\
    ~ (0 <= -1 <= __len__ d - 1) /\
    nth_error (_samples d) 3 = Some sample /\
    __getitem__ d (-1) = Ok sample.
Proof.
  do 2 eexists. split; [vm_compute; reflexivity|].
  split; [lia|]. split; vm_compute; reflexivity.
Qed.

Lemma getitem_of_constructed_dataset_witness :
  exists d,
    __init__ (Some dataset8) 2 2 1 1 (Some (4, 7)) = Ok d /\
    ((0 <= 2 < __len__ d ->
      exists sample,
        nth_error (_samples d) (Z.to_nat 2) = Some sample /\
        __getitem__ d 2 = Ok sample) /\
     (- __len__ d <= 2 < 0 ->
      exists sample,
        nth_error (_samples d) (Z.to_nat (__len__ d + 2)) = Some sample /\
        __getitem__ d 2 = Ok sample) /\
     (2 < - __len__ d \/ __len__ d <= 2 ->
      __getitem__ d 2 = Raise IndexError)).
Proof.
  eexists. split; [vm_compute; reflexivity|].
  apply (@getitem_of_constructed_dataset Z (Some dataset8) 2 2 1 1
           (Some (4, 7))).
  vm_compute. reflexivity.
Defined.

(** C10 as it is stated fails when a later check raises: a target of one
    row with [in_chunk_len = 2], [skip_chunk_len = 0], [out_chunk_len = 1]
    and the window [(2, 1)], which lies within the two bounds, is too short
    for one sample. *)
Lemma inverted_window_can_still_be_rejected :
  0 <= 2 /\ 0 <= 0 /\ 0 < 1 /\ 0 < 1 /\
  _compute_min_allowed_window 2 0 1 <= 2 /\
  1 <= Py.len (time_index target1) - 1 + 0 + 1 /\
  1 < 2 /\
  __init__ (Some dataset1) 2 1 0 1 (Some (2, 1))
    = Raise (ValidationError TargetTooShortError).
Proof.
  repeat split; vm_compute; (reflexivity || discriminate).
Qed.

Lemma inverted_window_builds_nothing_witness :
  get_target target_only8 = Some target8 /\
  1 <= Py.len (time_index target8) /\
  0 <= 2 /\ 0 <= 1 /\ 0 < 2 /\ 0 < 1 /\
  _compute_min_allowed_window 2 1 2 <= 7 /\
  4 <= max_allowed_window 2 1 target8 /\
  4 < 7 /\
  check_target_length 2 2 1 target8 (7, 4) = Ok 7 /\
  check_known_cov target_only8 target8 (7, 4) 7 = Ok tt /\
  check_observed_cov 2 1 target_only8 target8 (7, 4) 7 = Ok tt /\
  exists d,
    __init__ (Some target_only8) 2 2 1 1 (Some (7, 4)) = Ok d /\
    _time_window d = (7, 4) /\
    __len__ d = 0.
Proof.
  refine (conj _ (conj _ (conj _ (conj _ (conj _ (conj _ (conj _ (conj _
    (conj _ (conj _ (conj _ (conj _
      (@inverted_window_builds_nothing Z target_only8 target8 2 2 1 1 7 4 7
         _ _ _ _ _ _ _ _ _ _ _ _)))))))))))));
    vm_compute; (reflexivity || discriminate).
Defined.

(** * Further properties of the adapter *)

(** ** Rows that exist, time indexes that share their rows *)

Lemma rows_from_complete A (l : list A) : forall count first,
  (first + count <= length l)%nat ->
  rows_from l first count = Some (firstn count (skipn first l)).
Proof.
  induction count as [|count IH]; intros first H; simpl; [reflexivity|].
  destruct (nth_error l first) as [r|] eqn:Er.
  - rewrite IH by lia. rewrite (skipn_nth_error _ _ Er). reflexivity.
  - apply nth_error_None in Er. lia.
Qed.

Lemma rows_between_within A (l : list A) first last :
  0 <= first -> first <= last + 1 -> last < Py.len l ->
  rows_between l first last = Some (Py.slice l first (last + 1)).
Proof.
  intros H0 H1 H2. unfold rows_between.
  destruct (Z.eqb_spec first (last + 1)) as [->|Hne].
  - now rewrite slice_empty.
  - destruct (Z.ltb_spec first 0); [lia|].
    destruct (Z.ltb_spec last first); [lia|]. simpl.
    rewrite rows_from_complete by (unfold Py.len in H2; lia).
    rewrite slice_within by lia.
    replace (last + 1 - first) with (last - first + 1) by lia. reflexivity.
Qed.

Lemma strictly_increasing_tail x index :
  strictly_increasing (x :: index) = true -> strictly_increasing index = true.
Proof.
  simpl. destruct index as [|y index]; [reflexivity|].
  intros H. apply andb_true_iff in H. tauto.
Qed.

Lemma strictly_increasing_head index : forall x q y,
  strictly_increasing (x :: index) = true ->
  nth_error index q = Some y -> x < y.
Proof.
  induction index as [|z index IH]; intros x q y H Hq.
  - destruct q; discriminate.
  - simpl in H. apply andb_true_iff in H. destruct H as [Hlt Hinc].
    apply Z.ltb_lt in Hlt. destruct q as [|q].
    + injection Hq as <-. exact Hlt.
    + simpl in Hq. specialize (IH z q y Hinc Hq). lia.
Qed.

Lemma strictly_increasing_nth index : forall p q x y,
  strictly_increasing index = true ->
  (p < q)%nat ->
  nth_error index p = Some x -> nth_error index q = Some y -> x < y.
Proof.
  induction index as [|z index IH]; intros p q x y H Hpq Hp Hq.
  - destruct p; discriminate.
  - destruct q as [|q]; [lia|]. simpl in Hq. destruct p as [|p].
    + injection Hp as <-. eapply strictly_increasing_head; eassumption.
    + simpl in Hp. apply (IH p q x y); try assumption.
      * eapply strictly_increasing_tail; eassumption.
      * lia.
Qed.

Lemma strictly_increasing_inj index p q x :
  strictly_increasing index = true ->
  nth_error index p = Some x -> nth_error index q = Some x -> p = q.
Proof.
  intros H Hp Hq.
  destruct (Nat.lt_trichotomy p q) as [Hlt|[Heq|Hgt]]; [|exact Heq|].
  - pose proof (@strictly_increasing_nth index p q x x H Hlt Hp Hq). lia.
  - pose proof (@strictly_increasing_nth index q p x x H Hgt Hq Hp). lia.
Qed.

Lemma rows_agree_nth a : forall b p x y,
  rows_agree a b = true ->
  nth_error a p = Some x -> nth_error b p = Some y -> x = y.
Proof.
  induction a as [|u a IH]; intros b p x y H Ha Hb.
  - destruct p; discriminate.
  - destruct b as [|v b]; [destruct p; discriminate|].
    simpl in H. apply andb_true_iff in H. destruct H as [Huv H].
    apply Z.eqb_eq in Huv. destruct p as [|p]; simpl in Ha, Hb.
    + congruence.
    + eapply IH; eassumption.
Qed.

(** In a covariate that shares its rows with the target, a target
    timestamp sits in the row it has in the target. *)
Lemma position_in_shared_rows target_index cov_index p ts q :
  strictly_increasing target_index = true ->
  strictly_increasing cov_index = true ->
  rows_agree target_index cov_index = true ->
  nth_error target_index p = Some ts ->
  position_of cov_index ts = Some q ->
  q = Z.of_nat p.
Proof.
  intros Ht Hc Hagree Hp Hq.
  unfold position_of in Hq.
  destruct (find_pos cov_index ts) as [q'|] eqn:E; [|discriminate].
  injection Hq as <-. f_equal.
  apply find_pos_Some in E. destruct E as [Hlt Hq'].
  destruct (nth_error target_index q') as [x|] eqn:Ex.
  - assert (x = ts) by (eapply rows_agree_nth; eassumption). subst x.
    exact (@strictly_increasing_inj target_index q' p ts Ht Ex Hp).
  - apply nth_error_None in Ex.
    assert (Hp' : (p < length target_index)%nat)
      by (apply nth_error_Some; congruence).
    destruct (nth_error cov_index p) as [y|] eqn:Ey.
    + assert (ts = y) by (eapply rows_agree_nth; eassumption). subst y.
      exact (@strictly_increasing_inj cov_index q' p ts Hc Hq' Ey).
    + apply nth_error_None in Ey. lia.
Qed.

Section Further.
Variable cell : Type.
Implicit Types (ds : TSDataset cell) (target : TimeSeries cell).
Implicit Types (d : MLDataset cell) (sample : Sample cell).

(** ** The end of the loop *)

Lemma build_loop_one_more (self : MLDataset cell) target :
  0 < _sampling_stride self ->
  forall fuel t,
    (Z.to_nat (snd (_time_window self) - t + 1) <= fuel)%nat ->
    build_loop self target (S fuel) t = build_loop self target fuel t.
Proof.
  intros Hs. induction fuel as [|fuel IH]; intros t Hf.
  - simpl. destruct (Z.leb_spec t (snd (_time_window self))); [lia|reflexivity].
  - change (build_loop self target (S (S fuel)) t)
      with (if t <=? snd (_time_window self)
            then sample <- build_sample self target t ;;
                 samples <- build_loop self target (S fuel)
                              (t + _sampling_stride self) ;;
                 Ok (sample :: samples)
            else Ok []).
    change (build_loop self target (S fuel) t)
      with (if t <=? snd (_time_window self)
            then sample <- build_sample self target t ;;
                 samples <- build_loop self target fuel
                              (t + _sampling_stride self) ;;
                 Ok (sample :: samples)
            else Ok []).
    destruct (Z.leb_spec t (snd (_time_window self))); [|reflexivity].
    rewrite IH by lia. reflexivity.
Qed.

(** X1: with a stride of at least 1 the [while] loop of [_build_samples]
    ends within [upper - t + 1] iterations: run from the tail [t] with that
    many iterations allowed it is not cut off, and allowing more iterations
    does not change what it returns or raises. *)
Theorem while_loop_ends :
  forall (self : MLDataset cell) target t extra,
    0 < _sampling_stride self ->
    let enough := Z.to_nat (snd (_time_window self) - t + 1) in
    build_loop self target enough t <> OutOfFuel /\
    build_loop self target (enough + extra) t
      = build_loop self target enough t.
Proof.
  intros self target t extra Hs enough. split.
  - apply build_loop_terminates; [assumption|]. unfold enough. lia.
  - induction extra as [|extra IH].
    + now rewrite Nat.add_0_r.
    + rewrite Nat.add_succ_r, build_loop_one_more by (unfold enough; lia).
      exact IH.
Qed.

(** X2: with a stride of 0 or less the loop never returns: from a tail
    within the window no number of iterations makes it return a list of
    samples (it raises in a sample or runs on). *)
Theorem loop_needs_positive_stride :
  forall (self : MLDataset cell) target,
    _sampling_stride self <= 0 ->
    forall fuel t built,
      t <= snd (_time_window self) ->
      build_loop self target fuel t <> Ok built.
Proof.
  intros self target Hs. induction fuel as [|fuel IH]; intros t built Ht; simpl.
  - destruct (Z.leb_spec t (snd (_time_window self))); [discriminate|lia].
  - destruct (Z.leb_spec t (snd (_time_window self))) as [Hle|Hgt]; [|lia].
    intros Hok. apply bind_ok in Hok. destruct Hok as (sample & _ & Hok).
    apply bind_ok in Hok. destruct Hok as (rest & Hok & _).
    apply IH in Hok; [exact Hok|lia].
Qed.

(** ** What a sample holds *)

(** X3: two datasets built from one raw dataset with the same chunk
    lengths, whatever their windows and strides, hold the same sample at the
    same tail: a sample depends on its tail only. *)
Theorem sample_depends_on_tail_only :
  forall rawdataset in_chunk_len out_chunk_len skip_chunk_len
         stride1 stride2 window1 window2 d1 d2 n1 n2 sample1 sample2,
    __init__ rawdataset in_chunk_len out_chunk_len skip_chunk_len stride1
      window1 = Ok d1 ->
    __init__ rawdataset in_chunk_len out_chunk_len skip_chunk_len stride2
      window2 = Ok d2 ->
    nth_error (samples d1) n1 = Some sample1 ->
    nth_error (samples d2) n2 = Some sample2 ->
    fst (_time_window d1) + Z.of_nat n1 * stride1
      = fst (_time_window d2) + Z.of_nat n2 * stride2 ->
    sample1 = sample2.
Proof.
  intros rd i o s st1 st2 tw1 tw2 d1 d2 n1 n2 a b H1 H2 Hn1 Hn2 Ht.
  unfold samples in *.
  apply init_ok_facts in H1, H2.
  destruct H1 as (ds1 & t1 & m1 & F1). destruct H2 as (ds2 & t2 & m2 & F2).
  decompose [and] F1. decompose [and] F2. clear F1 F2.
  assert (ds2 = ds1) by congruence. subst ds2.
  assert (t2 = t1) by congruence. subst t2.
  repeat match goal with
  | H : build_loop _ _ _ _ = Ok (_samples d1) |- _ =>
      destruct (build_loop_nth _ _ _ _ H _ Hn1) as [_ B1]; clear H
  | H : build_loop _ _ _ _ = Ok (_samples d2) |- _ =>
      destruct (build_loop_nth _ _ _ _ H _ Hn2) as [_ B2]; clear H
  end.
  simpl in B1, B2. rewrite Ht in B1.
  change (build_sample (self_before_build i o s st2 ds1 (_time_window d2)) t1
            (fst (_time_window d2) + Z.of_nat n2 * st2) = Ok a) in B1.
  congruence.
Qed.

Lemma build_known_cov_past_target (self : MLDataset cell) target t t' :
  t > Py.len (time_index target) - 1 ->
  t' > Py.len (time_index target) - 1 ->
  build_known_cov self target t = build_known_cov self target t'.
Proof.
  intros H H'. unfold build_known_cov.
  destruct (get_known_cov (_rawdataset self)); [|reflexivity].
  rewrite !Z.gtb_ltb.
  destruct (Z.ltb_spec (Py.len (time_index target) - 1) t); [|lia].
  destruct (Z.ltb_spec (Py.len (time_index target) - 1) t'); [|lia].
  reflexivity.
Qed.

(** X4: in a constructed dataset all the samples whose tail lies past the
    target ([t > len(target) - 1]) hold the same known covariate chunk: the
    right tail of the chunk is
    [position of the last target timestamp + skip_chunk_len + out_chunk_len]
    whatever the tail is. *)
Theorem known_cov_is_fixed_past_target :
  forall rawdataset in_chunk_len out_chunk_len skip_chunk_len sampling_stride
         time_window d target n1 n2 sample1 sample2,
    __init__ rawdataset in_chunk_len out_chunk_len skip_chunk_len
      sampling_stride time_window = Ok d ->
    get_target (_rawdataset d) = Some target ->
    nth_error (samples d) n1 = Some sample1 ->
    nth_error (samples d) n2 = Some sample2 ->
    fst (_time_window d) + Z.of_nat n1 * sampling_stride
      > Py.len (time_index target) - 1 ->
    fst (_time_window d) + Z.of_nat n2 * sampling_stride
      > Py.len (time_index target) - 1 ->
    known_cov sample1 = known_cov sample2.
Proof.
  intros rd i o s st tw d target n1 n2 a b H Ht Hn1 Hn2 Ht1 Ht2.
  unfold samples in *.
  destruct (@produced_sample _ _ _ _ _ _ _ _ _ _ H Hn1)
    as (ds & target' & Hds & Ht' & _ & _ & _ & _ & _ & _ & _ & B1).
  destruct (@produced_sample _ _ _ _ _ _ _ _ _ _ H Hn2)
    as (ds' & target'' & Hds' & Ht'' & _ & _ & _ & _ & _ & _ & _ & B2).
  subst ds ds'. assert (target' = target) by congruence.
  assert (target'' = target) by congruence. subst target' target''.
  apply build_sample_ok in B1, B2.
  destruct B1 as (_ & _ & B1 & _). destruct B2 as (_ & _ & B2 & _).
  rewrite (build_known_cov_past_target _ _ Ht1 Ht2) in B1. congruence.
Qed.

(** X5: the target chunks of a sample are rows of the target: with tail
    [t], [future_target] is the rows [t - out_chunk_len + 1 .. t] when
    [t <= len(target) - 1], and [past_target] is the rows that end
    [skip_chunk_len] rows before them,
    [t - out_chunk_len - skip_chunk_len - in_chunk_len + 1 ..
     t - out_chunk_len - skip_chunk_len], when [in_chunk_len] is not 0; all
    these rows exist. *)
Theorem target_chunks_are_rows :
  forall rawdataset in_chunk_len out_chunk_len skip_chunk_len sampling_stride
         time_window d target n sample,
    __init__ rawdataset in_chunk_len out_chunk_len skip_chunk_len
      sampling_stride time_window = Ok d ->
    get_target (_rawdataset d) = Some target ->
    nth_error (samples d) n = Some sample ->
    let t := fst (_time_window d) + Z.of_nat n * sampling_stride in
    (t <= Py.len (time_index target) - 1 ->
     rows_between (to_numpy target) (t - out_chunk_len + 1) t
       = Some (future_target sample)) /\
    (in_chunk_len <> 0 ->
     rows_between (to_numpy target)
       (t - out_chunk_len - skip_chunk_len - in_chunk_len + 1)
       (t - out_chunk_len - skip_chunk_len)
       = Some (past_target sample)).
Proof.
  intros rd i o s st tw d target n sample H Ht Hn t. unfold samples in *.
  destruct (@produced_sample _ _ _ _ _ _ _ _ _ _ H Hn)
    as (ds & target' & Hds & Ht' & Hlen & Hi & Hs & Ho & Hst & Hlo & Hup & Hb).
  rewrite Hds in Ht. assert (target' = target) by congruence. subst target'.
  fold t in Hlo, Hup, Hb.
  apply build_sample_ok in Hb. simpl in Hb.
  destruct Hb as (Hfuture & Hpast & _ & _).
  rewrite Hfuture, Hpast. rewrite Z.gtb_ltb. split.
  - intros Hle. destruct (Z.ltb_spec (Py.len (time_index target) - 1) t); [lia|].
    apply rows_between_within; rewrite ?len_to_numpy; lia.
  - intros Hne. destruct (Z.eqb_spec i 0); [contradiction|].
    rewrite rows_between_within; rewrite ?len_to_numpy; try lia.
    repeat f_equal; lia.
Qed.

(** ** Covariates that share the rows of the target *)

Lemma nth_error_of_getitem A (l : list A) i a :
  0 <= i -> Py.getitem l i = Some a -> nth_error l (Z.to_nat i) = Some a.
Proof. intros H. now rewrite getitem_nonneg. Qed.

(** X6: when the observed covariate shares the rows of the target (both
    time indexes strictly increasing, the same timestamp in every common
    row), the observed chunk of every sample is the
    [max(1, in_chunk_len)] rows of the covariate that end at the row of the
    past target tail, [t - out_chunk_len - skip_chunk_len]; these rows
    exist. *)
Theorem observed_cov_chunk_of_shared_rows :
  forall rawdataset in_chunk_len out_chunk_len skip_chunk_len sampling_stride
         time_window d target observed n sample,
    __init__ rawdataset in_chunk_len out_chunk_len skip_chunk_len
      sampling_stride time_window = Ok d ->
    get_target (_rawdataset d) = Some target ->
    get_observed_cov (_rawdataset d) = Some observed ->
    strictly_increasing (time_index target) = true ->
    strictly_increasing (time_index observed) = true ->
    rows_agree (time_index target) (time_index observed) = true ->
    nth_error (samples d) n = Some sample ->
    let tail :=
      fst (_time_window d) + Z.of_nat n * sampling_stride
      - out_chunk_len - skip_chunk_len in
    rows_between (to_numpy observed) (tail - Z.max 1 in_chunk_len + 1) tail
      = Some (observed_cov sample) /\
    Py.len (observed_cov sample) = Z.max 1 in_chunk_len.
Proof.
  intros rd i o s st tw d target observed n sample H Ht Hobs It Io Hagree Hn
    tail.
  unfold samples in *.
  destruct (@produced_sample _ _ _ _ _ _ _ _ _ _ H Hn)
    as (ds & target' & Hds & Ht' & Hlen & Hi & Hs & Ho & Hst & Hlo & Hup & Hb).
  rewrite Hds in Ht, Hobs. assert (target' = target) by congruence.
  subst target'.
  apply build_sample_ok in Hb. destruct Hb as (_ & _ & _ & Hb).
  simpl in Hb. fold tail in Hb.
  unfold build_observed_cov in Hb. simpl in Hb. rewrite Hobs in Hb.
  apply bind_ok in Hb. destruct Hb as (ts & Hts & Hb).
  apply bind_ok in Hb. destruct Hb as (q & Hq & Hb).
  injection Hb as Hb.
  apply index_or_raise_ok in Hts. apply get_loc_ok in Hq.
  assert (Htail : 0 <= tail) by (unfold tail; lia).
  apply nth_error_of_getitem in Hts; [|exact Htail].
  pose proof (position_in_shared_rows _ _ _ It Io Hagree Hts Hq) as Hqt.
  rewrite Z2Nat.id in Hqt by exact Htail. subst q.
  destruct (position_of_range _ _ Hq) as [Hrange _].
  assert (Hchunk : (if i =? 0 then 1 else i) = Z.max 1 i)
    by (destruct (Z.eqb_spec i 0); lia).
  rewrite Hchunk in Hb.
  assert (Hrows :
    rows_between (to_numpy observed) (tail - Z.max 1 i + 1) tail
      = Some (observed_cov sample)).
  { rewrite rows_between_within by (rewrite ?len_to_numpy; lia).
    now rewrite Hb. }
  split; [exact Hrows|].
  rewrite (len_rows_between _ _ _ Hrows). lia.
Qed.

(** X7: when the known covariate shares the rows of the target and the
    window either lies within the target or ends at the largest allowed
    tail, the known chunk of every sample has
    [in_chunk_len + out_chunk_len] rows: with [right_tail] the tail [t] of
    the sample when [t <= len(target) - 1] and
    [len(target) - 1 + skip_chunk_len + out_chunk_len] otherwise, it is the
    [in_chunk_len] rows that end at
    [right_tail - out_chunk_len - skip_chunk_len] followed by the
    [out_chunk_len] rows that end at [right_tail]; these rows exist. *)
Theorem known_cov_chunk_of_shared_rows :
  forall rawdataset in_chunk_len out_chunk_len skip_chunk_len sampling_stride
         time_window d target known n sample,
    __init__ rawdataset in_chunk_len out_chunk_len skip_chunk_len
      sampling_stride time_window = Ok d ->
    get_target (_rawdataset d) = Some target ->
    get_known_cov (_rawdataset d) = Some known ->
    strictly_increasing (time_index target) = true ->
    strictly_increasing (time_index known) = true ->
    rows_agree (time_index target) (time_index known) = true ->
    snd (_time_window d) <= Py.len (time_index target) - 1 \/
    snd (_time_window d)
      = Py.len (time_index target) - 1 + skip_chunk_len + out_chunk_len ->
    nth_error (samples d) n = Some sample ->
    let t := fst (_time_window d) + Z.of_nat n * sampling_stride in
    let right_tail :=
      if t <=? Py.len (time_index target) - 1
      then t
      else Py.len (time_index target) - 1 + skip_chunk_len + out_chunk_len in
    exists left right,
      rows_between (to_numpy known)
        (right_tail - out_chunk_len - skip_chunk_len - in_chunk_len + 1)
        (right_tail - out_chunk_len - skip_chunk_len) = Some left /\
      rows_between (to_numpy known)
        (right_tail - out_chunk_len + 1) right_tail = Some right /\
      known_cov sample = left ++ right /\
      Py.len (known_cov sample) = in_chunk_len + out_chunk_len.
Proof.
  intros rd i o s st tw d target known n sample H Ht Hk It Ik Hagree Hw Hn
    t right_tail.
  unfold samples in *.
  pose proof H as F. apply init_ok_facts in F.
  destruct F as (ds & target' & mts & F). decompose [and] F. clear F.
  subst ds.
  assert (target' = target) by congruence. subst target'.
  match goal with
  | B : build_loop _ _ _ _ = Ok _ |- _ =>
      destruct (build_loop_nth _ _ _ _ B _ Hn) as [Hup Hb]
  end.
  simpl in Hup, Hb. fold t in Hup, Hb.
  assert (Hlo : Z.max 1 i + s + o - 1 <= t)
    by (unfold t, _compute_min_allowed_window in *; nia).
  apply build_sample_ok in Hb. destruct Hb as (_ & _ & Hb & _).
  apply (@build_known_cov_ok _ _ target known) in Hb; [|exact Hk|lia].
  simpl in Hb. destruct Hb as (rt & Hle & Hgt & Hchunk).
  assert (Hrt : rt = right_tail /\ right_tail < Py.len (time_index known) /\
                0 <= right_tail - o - s - i + 1).
  { unfold right_tail.
    destruct (Z.leb_spec t (Py.len (time_index target) - 1)) as [Hin|Hpast].
    - destruct (Hle Hin) as (ts & Hts & Hp).
      unfold timestamp_at in Hts.
      destruct (Z.ltb_spec t 0); [lia|].
      pose proof (position_in_shared_rows _ _ _ It Ik Hagree Hts Hp) as E.
      rewrite Z2Nat.id in E by lia.
      destruct (position_of_range _ _ Hp). lia.
    - destruct (Hgt ltac:(lia)) as (ts & p & Hlast' & Hp & ->).
      pose proof Hlast' as Hts.
      rewrite <- last_timestamp_getitem_len in Hts.
      apply nth_error_of_getitem in Hts; [|lia].
      pose proof (position_in_shared_rows _ _ _ It Ik Hagree Hts Hp) as E.
      rewrite Z2Nat.id in E by lia. subst p.
      match goal with
      | C : check_target_length _ _ _ _ _ = Ok _ |- _ =>
          apply check_target_length_ok in C; destruct C as [Hlast Hmin]
      end.
      assert (mts = ts) by congruence. subst mts.
      assert (Hreg : snd (_time_window d) > Py.len (time_index target) - 1)
        by lia.
      destruct (_time_window d) as [lower upper_] eqn:Ew. simpl in *.
      rewrite Z.gtb_ltb in Hmin.
      destruct (Z.ltb_spec (Py.len (time_index target) - 1) upper_); [|lia].
      pose proof Hp as Hidx.
      destruct (@check_known_cov_inference _ (_rawdataset d) target known
                  lower upper_ ts _ Hk Hreg Hidx) as [E|E];
        match goal with
        | C : check_known_cov _ _ _ _ = Ok tt |- _ => rewrite E in C
        end; [discriminate|].
      match goal with
      | C : raise_if _ _ = Ok tt |- _ =>
          apply raise_if_ok in C; apply Z.leb_gt in C;
          rewrite len_slice_from in C
            by (destruct (position_of_range _ _ Hidx);
                rewrite ?len_to_numpy; lia);
          rewrite len_to_numpy in C
      end.
      destruct Hw as [Hw|Hw]; lia. }
  destruct Hrt as (-> & Hhi & Hlow).
  exists (Py.slice (to_numpy known) (right_tail - o - s - i + 1)
            (right_tail - o - s + 1)),
         (Py.slice (to_numpy known) (right_tail - o + 1) (right_tail + 1)).
  assert (Hl := @rows_between_within _ (to_numpy known)
                  (right_tail - o - s - i + 1) (right_tail - o - s)).
  assert (Hr := @rows_between_within _ (to_numpy known)
                  (right_tail - o + 1) right_tail).
  rewrite len_to_numpy in Hl, Hr.
  specialize (Hl ltac:(lia) ltac:(lia) ltac:(lia)).
  specialize (Hr ltac:(lia) ltac:(lia) ltac:(lia)).
  split; [exact Hl|]. split; [exact Hr|]. split; [exact Hchunk|].
  rewrite Hchunk. unfold Py.len at 1. rewrite length_app, Nat2Z.inj_add.
  change (Py.len (Py.slice (to_numpy known) (right_tail - o - s - i + 1)
                    (right_tail - o - s + 1))
          + Py.len (Py.slice (to_numpy known) (right_tail - o + 1)
                      (right_tail + 1)) = i + o).
  rewrite (len_rows_between _ _ _ Hl), (len_rows_between _ _ _ Hr). lia.
Qed.

(** ** Datasets without covariates *)

Lemma build_sample_target_only (self : MLDataset cell) target t :
  get_known_cov (_rawdataset self) = None ->
  get_observed_cov (_rawdataset self) = None ->
  exists sample, build_sample self target t = Ok sample.
Proof.
  intros Hk Ho. unfold build_sample, build_known_cov, build_observed_cov.
  rewrite Hk, Ho. simpl. eauto.
Qed.

Lemma build_loop_target_only (self : MLDataset cell) target :
  get_known_cov (_rawdataset self) = None ->
  get_observed_cov (_rawdataset self) = None ->
  0 < _sampling_stride self ->
  forall fuel t,
    (Z.to_nat (snd (_time_window self) - t + 1) <= fuel)%nat ->
    exists built, build_loop self target fuel t = Ok built.
Proof.
  intros Hk Ho Hs. induction fuel as [|fuel IH]; intros t Hf; simpl.
  - destruct (Z.leb_spec t (snd (_time_window self))); [lia|eauto].
  - destruct (Z.leb_spec t (snd (_time_window self))); [|eauto].
    destruct (build_sample_target_only self target t Hk Ho) as [sample ->].
    destruct (IH (t + _sampling_stride self)) as [rest ->]; [lia|].
    simpl. eauto.
Qed.

(** X8: a dataset without covariates, with valid scalar parameters and a
    target of at least [max(1, in_chunk_len) + skip_chunk_len + out_chunk_len]
    rows, is constructed when no window is passed, and it holds
    [floor((len(target) - (max(1, in_chunk_len) + skip_chunk_len
      + out_chunk_len)) / sampling_stride) + 1] samples. *)
Theorem target_only_default_window_builds :
  forall ds target in_chunk_len out_chunk_len skip_chunk_len sampling_stride,
    get_target ds = Some target ->
    get_known_cov ds = None ->
    get_observed_cov ds = None ->
    0 <= in_chunk_len -> 0 <= skip_chunk_len ->
    0 < out_chunk_len -> 0 < sampling_stride ->
    Z.max 1 in_chunk_len + skip_chunk_len + out_chunk_len
      <= Py.len (time_index target) ->
    exists d,
      __init__ (Some ds) in_chunk_len out_chunk_len skip_chunk_len
        sampling_stride None = Ok d /\
      __len__ d =
        (Py.len (time_index target)
         - (Z.max 1 in_chunk_len + skip_chunk_len + out_chunk_len))
        / sampling_stride + 1.
Proof.
  intros ds target i o s st Ht Hk Ho Hi Hs Hout Hst Hlen.
  set (w := (_compute_min_allowed_window i s o, Py.len (time_index target) - 1)).
  destruct (@getitem_in_range _ (time_index target)
              (Py.len (time_index target) - 1)) as [tlast Hlast]; [lia|].
  rewrite last_timestamp_getitem_len in Hlast.
  destruct (@build_loop_target_only (self_before_build i o s st ds w) target
              Hk Ho Hst (Z.to_nat (snd w - fst w + 1)) (fst w))
    as [built Hb]; [simpl; lia|].
  exists (set_samples (self_before_build i o s st ds w) built). split.
  - apply init_ok. exists ds, target, w, tlast, built.
    split; [|split; [|split; [|reflexivity]]].
    + apply validate_ok. repeat split.
      * apply check_arguments_ok. repeat split; auto; lia.
      * apply resolve_time_window_ok. auto.
      * apply check_window_bounds_ok. unfold max_allowed_window, w. simpl.
        rewrite <- len_time_index. lia.
      * apply check_target_length_ok. split; [assumption|].
        unfold w. simpl. rewrite Z.gtb_ltb.
        destruct (Z.ltb_spec (Py.len (time_index target) - 1)
                    (Py.len (time_index target) - 1)); lia.
      * unfold check_known_cov. now rewrite Hk.
    + unfold check_observed_cov. now rewrite Ho.
    + unfold _build_samples. simpl. rewrite Ht. exact Hb.
  - unfold __len__. simpl.
    apply build_loop_length in Hb; [|exact Hst]. simpl in Hb. rewrite Hb.
    unfold _compute_min_allowed_window.
    replace (Py.len (time_index target) - 1 - (Z.max 1 i + s + o - 1))
      with (Py.len (time_index target) - (Z.max 1 i + s + o)) by lia.
    assert (0 <= (Py.len (time_index target) - (Z.max 1 i + s + o)) / st)
      by (apply Z.div_pos; lia).
    lia.
Qed.

Lemma build_loop_target_only_raises (self : MLDataset cell) target :
  get_known_cov (_rawdataset self) = None ->
  get_observed_cov (_rawdataset self) = None ->
  forall fuel t, raises_only (fun _ => False) (build_loop self target fuel t).
Proof.
  intros Hk Ho. induction fuel as [|fuel IH]; intros t; simpl.
  - destruct (t <=? snd (_time_window self));
      [intros e H; discriminate|apply raises_only_Ok].
  - destruct (t <=? snd (_time_window self)); [|apply raises_only_Ok].
    destruct (build_sample_target_only self target t Hk Ho) as [sample ->].
    simpl. apply raises_only_bind; [apply IH|intros l; apply raises_only_Ok].
Qed.

(** X9: for a dataset without covariates the construction returns or
    raises a validation error: no [IndexError] or [KeyError] of a slice or
    of a timestamp lookup escapes from it. *)
Theorem target_only_raises_validation_errors_only :
  forall ds in_chunk_len out_chunk_len skip_chunk_len sampling_stride
         time_window,
    get_known_cov ds = None ->
    get_observed_cov ds = None ->
    (exists d,
       __init__ (Some ds) in_chunk_len out_chunk_len skip_chunk_len
         sampling_stride time_window = Ok d) \/
    (exists v,
       __init__ (Some ds) in_chunk_len out_chunk_len skip_chunk_len
         sampling_stride time_window = Raise (ValidationError v)).
Proof.
  intros ds i o s st tw Hk Ho.
  destruct (__init__ (Some ds) i o s st tw) as [d|e|] eqn:E.
  - left. eauto.
  - right. apply init_raise in E.
    destruct E as
      [E|(ds' & target & E1 &
          [E|(w & E2 &
              [E|(mts & E3 &
                  [E|(E4 & [E|(E5 & [E|(E6 & E)])])])])])].
    + apply check_arguments_raises in E. destruct E as (v & -> & _). eauto.
    + apply resolve_time_window_raises in E. subst e. eauto.
    + apply check_window_bounds_raises in E. destruct E as (v & -> & _). eauto.
    + apply check_arguments_ok in E1. destruct E1 as (_ & _ & Hlen & _).
      unfold check_target_length in E. apply bind_raise in E.
      destruct E as [E|(a & _ & E)].
      * destruct (@getitem_in_range _ (time_index target)
                    (Py.len (time_index target) - 1)) as [x Hx]; [lia|].
        unfold index_or_raise in E. rewrite Hx in E. discriminate.
      * apply bind_raise in E. destruct E as [E|(u & _ & E)]; [|discriminate].
        apply raise_if_raise in E. destruct E as [_ ->]. eauto.
    + apply check_arguments_ok in E1. destruct E1 as ([= <-] & _).
      unfold check_known_cov in E. rewrite Hk in E. discriminate.
    + apply check_arguments_ok in E1. destruct E1 as ([= <-] & _).
      unfold check_observed_cov in E. rewrite Ho in E. discriminate.
    + apply check_arguments_ok in E1. destruct E1 as ([= <-] & Ht & _).
      unfold _build_samples in E. simpl in E. rewrite Ht in E.
      destruct w as [lower upper]. exfalso.
      exact (@build_loop_target_only_raises
               (self_before_build i o s st ds (lower, upper)) target Hk Ho
               _ _ _ E).
  - exfalso. revert E. apply init_terminates.
Qed.

(** ** The check of the target length *)

(** X10: for a caller-supplied window with [lower <= upper] the check of
    the target length never fails: a window that passes the two bound
    checks already leaves room for one sample, so the error of a target
    that is too short is left to omitted and to inverted windows. *)
Theorem target_length_follows_from_window_bounds :
  forall (rawdataset : option (TSDataset cell))
         in_chunk_len out_chunk_len skip_chunk_len sampling_stride
         lower upper,
    lower <= upper ->
    __init__ rawdataset in_chunk_len out_chunk_len skip_chunk_len
      sampling_stride (Some (lower, upper))
    <> Raise (ValidationError TargetTooShortError).
Proof.
  intros rd i o s st lower upper Hw H. apply init_raise in H.
  destruct H as
    [E|(ds & target & E1 &
        [E|(w & E2 &
            [E|(mts & E3 &
                [E|(E4 & [E|(E5 & [E|(E6 & E)])])])])])].
  - apply check_arguments_raises in E.
    destruct E as (v & [= <-] & [E|[E|[E|[E|E]]]]); discriminate.
  - discriminate.
  - apply check_window_bounds_raises in E.
    destruct E as (v & [= <-] & [E|E]); discriminate.
  - simpl in E2. injection E2 as <-.
    apply check_arguments_ok in E1.
    destruct E1 as (_ & _ & Hlen & Hi & Hs & Ho & _).
    apply check_window_bounds_ok in E3. simpl in E3.
    unfold max_allowed_window, _compute_min_allowed_window in E3.
    rewrite <- len_time_index in E3.
    unfold check_target_length in E. apply bind_raise in E.
    destruct E as [E|(a & _ & E)].
    + destruct (@getitem_in_range _ (time_index target)
                  (Py.len (time_index target) - 1)) as [x Hx]; [lia|].
      unfold index_or_raise in E. rewrite Hx in E. discriminate.
    + apply bind_raise in E. destruct E as [E|(u & _ & E)]; [|discriminate].
      apply raise_if_raise in E. destruct E as [E _].
      apply Z.ltb_lt in E. simpl in E. rewrite Z.gtb_ltb in E.
      destruct (Z.ltb_spec (Py.len (time_index target) - 1) upper); lia.
  - apply check_known_cov_raises in E. destruct E as [E|[E|[E|E]]]; discriminate.
  - apply check_observed_cov_raises in E. destruct E; discriminate.
  - apply _build_samples_raises in E. destruct E as [E|[E|E]]; discriminate.
Qed.

(** X11: for a dataset with a non-empty target and valid scalar parameters
    and no window passed, the construction fails with the error of a target
    that is too short if and only if
    [len(target) < max(1, in_chunk_len) + skip_chunk_len + out_chunk_len]. *)
Theorem default_window_needs_room_for_one_sample :
  forall ds target in_chunk_len out_chunk_len skip_chunk_len sampling_stride,
    get_target ds = Some target ->
    1 <= Py.len (time_index target) ->
    0 <= in_chunk_len -> 0 <= skip_chunk_len ->
    0 < out_chunk_len -> 0 < sampling_stride ->
    (__init__ (Some ds) in_chunk_len out_chunk_len skip_chunk_len
       sampling_stride None = Raise (ValidationError TargetTooShortError) <->
     Py.len (time_index target)
       < Z.max 1 in_chunk_len + skip_chunk_len + out_chunk_len).
Proof.
  intros ds target i o s st Ht Hlen Hi Hs Ho Hst.
  assert (Hargs : check_arguments (Some ds) i o s st = Ok (ds, target))
    by (apply check_arguments_ok; auto 10).
  split.
  - intros H. apply init_raise in H.
    destruct H as
      [E|(ds' & target' & E1 &
          [E|(w & E2 &
              [E|(mts & E3 &
                  [E|(E4 & [E|(E5 & [E|(E6 & E)])])])])])].
    + congruence.
    + rewrite Hargs in E1. injection E1 as <- <-.
      unfold resolve_time_window in E. apply bind_raise in E.
      destruct E as [E|(u & _ & E)]; [|discriminate].
      apply raise_if_raise in E. destruct E as [E _]. now apply Z.ltb_lt.
    + apply check_window_bounds_raises in E.
      destruct E as (v & [= <-] & [E|E]); discriminate.
    + rewrite Hargs in E1. injection E1 as <- <-.
      apply resolve_time_window_ok in E2. destruct E2 as [Hroom ->].
      unfold check_target_length in E. apply bind_raise in E.
      destruct E as [E|(a & _ & E)].
      * destruct (@getitem_in_range _ (time_index target)
                    (Py.len (time_index target) - 1)) as [x Hx]; [lia|].
        unfold index_or_raise in E. rewrite Hx in E. discriminate.
      * apply bind_raise in E. destruct E as [E|(u & _ & E)]; [|discriminate].
        apply raise_if_raise in E. destruct E as [E _].
        apply Z.ltb_lt in E. simpl in E. rewrite Z.gtb_ltb in E.
        destruct (Z.ltb_spec (Py.len (time_index target) - 1)
                    (Py.len (time_index target) - 1)); lia.
    + apply check_known_cov_raises in E.
      destruct E as [E|[E|[E|E]]]; discriminate.
    + apply check_observed_cov_raises in E. destruct E; discriminate.
    + apply _build_samples_raises in E. destruct E as [E|[E|E]]; discriminate.
  - intros Hshort. unfold __init__, validate_before_observed_cov.
    rewrite Hargs. simpl. unfold raise_if.
    apply Z.ltb_lt in Hshort. rewrite Hshort. reflexivity.
Qed.

(** X12: a dataset constructed without a window is never empty: it holds
    [floor((len(target) - (max(1, in_chunk_len) + skip_chunk_len
      + out_chunk_len)) / sampling_stride) + 1] samples, which is at least
    one. *)
Theorem default_window_is_never_empty :
  forall rawdataset in_chunk_len out_chunk_len skip_chunk_len sampling_stride d,
    __init__ rawdataset in_chunk_len out_chunk_len skip_chunk_len
      sampling_stride None = Ok d ->
    exists target,
      get_target (_rawdataset d) = Some target /\
      __len__ d =
        (Py.len (time_index target)
         - (Z.max 1 in_chunk_len + skip_chunk_len + out_chunk_len))
        / sampling_stride + 1 /\
      1 <= __len__ d.
Proof.
  intros rd i o s st d H. apply init_ok_facts in H.
  destruct H as (ds & target & mts & F). decompose [and] F. clear F. subst ds.
  exists target. split; [assumption|].
  match goal with
  | R : resolve_time_window _ _ _ None _ = Ok _ |- _ =>
      apply resolve_time_window_ok in R; destruct R as [Hroom Hw]
  end.
  match goal with
  | B : build_loop _ _ _ _ = Ok _ |- _ =>
      apply build_loop_length in B; [|simpl; lia]; simpl in B;
      rewrite Hw in B; simpl in B; rename B into Hlen
  end.
  unfold __len__. rewrite Hlen. unfold _compute_min_allowed_window.
  replace (Py.len (time_index target) - 1 - (Z.max 1 i + s + o - 1))
    with (Py.len (time_index target) - (Z.max 1 i + s + o)) by lia.
  assert (0 <= (Py.len (time_index target) - (Z.max 1 i + s + o)) / st)
    by (apply Z.div_pos; lia).
  lia.
Qed.

(** ** The check of the known covariate *)

Lemma check_known_cov_raise_early ds target known w tlast :
  get_known_cov ds = Some known ->
  last_timestamp (time_index target) = Some tlast ->
  check_known_cov ds target w tlast
    = Raise (ValidationError KnownCovTimestampTooEarlyError) <->
  known_cov_too_early target known (snd w).
Proof.
  intros Hk Hl. unfold check_known_cov, known_cov_too_early.
  rewrite Hk, Z.gtb_ltb. unfold index_or_raise.
  rewrite last_timestamp_getitem.
  destruct (Z.ltb_spec (Py.len (time_index target) - 1) (snd w)) as [Hgt|Hle].
  - split.
    + intros H. right. split; [lia|].
      destruct (last_timestamp (time_index known)) as [klast|];
        [|discriminate].
      simpl in H. apply bind_raise in H.
      destruct H as [H|(u & _ & H)].
      * apply raise_if_raise in H. destruct H as [H _].
        apply Z.ltb_lt in H. eauto.
      * apply bind_raise in H. destruct H as [H|(idx & _ & H)].
        -- unfold get_loc in H.
           destruct (find_pos (time_index known) tlast); discriminate.
        -- apply raise_if_raise in H. destruct H as [_ H]. discriminate.
    + intros [[Hle _]|(_ & tlast' & klast & H1 & H2 & H3)]; [lia|].
      rewrite H2. simpl. assert (tlast' = tlast) by congruence. subst tlast'.
      apply Z.ltb_lt in H3. rewrite H3. reflexivity.
  - split.
    + intros H. left. split; [lia|].
      destruct (Py.getitem (time_index target) (snd w)) as [ts|];
        [|discriminate].
      simpl in H.
      destruct (last_timestamp (time_index known)) as [klast|];
        [|discriminate].
      simpl in H. apply raise_if_raise in H. destruct H as [H _].
      apply Z.ltb_lt in H. eauto.
    + intros [(_ & ts & klast & H1 & H2 & H3)|[Hgt _]]; [|lia].
      rewrite H1. simpl. rewrite H2. simpl.
      apply Z.ltb_lt in H3. rewrite H3. reflexivity.
Qed.

(** The construction once the checks of the arguments, of the window and
    of the target length have passed. *)
Lemma init_after_target_checks rawdataset in_len out_len skip_len stride
  time_window ds target w tlast :
  check_arguments rawdataset in_len out_len skip_len stride = Ok (ds, target) ->
  resolve_time_window in_len out_len skip_len time_window target = Ok w ->
  check_window_bounds in_len out_len skip_len target w = Ok tt ->
  check_target_length in_len out_len skip_len target w = Ok tlast ->
  __init__ rawdataset in_len out_len skip_len stride time_window =
  (check_known_cov ds target w tlast ;;;
   check_observed_cov out_len skip_len ds target w tlast ;;;
   samples <- _build_samples
                (self_before_build in_len out_len skip_len stride ds w) ;;
   Ok (set_samples (self_before_build in_len out_len skip_len stride ds w)
         samples)).
Proof.
  intros H1 H2 H3 H4. unfold __init__, validate_before_observed_cov.
  rewrite H1. simpl. rewrite H2. simpl. rewrite H3. simpl. rewrite H4. simpl.
  destruct (check_known_cov ds target w tlast) as [[]| |]; reflexivity.
Qed.

(** X13: when a known covariate is present and the checks of the
    arguments, of the window and of the target length pass, the construction
    raises the error of a known covariate that ends too early if and only
    if: the window lies within the target ([upper <= len(target) - 1]) and
    the last known timestamp is earlier than the target timestamp at the
    Python index [upper], or the window reaches past the target and the last
    known timestamp is earlier than the last target timestamp. *)
Theorem known_cov_end_validation :
  forall rawdataset in_chunk_len out_chunk_len skip_chunk_len sampling_stride
         time_window ds target w tlast known,
    check_arguments rawdataset in_chunk_len out_chunk_len skip_chunk_len
      sampling_stride = Ok (ds, target) ->
    resolve_time_window in_chunk_len out_chunk_len skip_chunk_len time_window
      target = Ok w ->
    check_window_bounds in_chunk_len out_chunk_len skip_chunk_len target w
      = Ok tt ->
    check_target_length in_chunk_len out_chunk_len skip_chunk_len target w
      = Ok tlast ->
    get_known_cov ds = Some known ->
    (__init__ rawdataset in_chunk_len out_chunk_len skip_chunk_len
       sampling_stride time_window
       = Raise (ValidationError KnownCovTimestampTooEarlyError) <->
     known_cov_too_early target known (snd w)).
Proof.
  intros rd i o s st tw ds target w tlast known H1 H2 H3 H4 Hk.
  assert (Hl : last_timestamp (time_index target) = Some tlast)
    by (apply check_target_length_ok in H4; tauto).
  rewrite <- (@check_known_cov_raise_early ds target known w tlast Hk Hl).
  rewrite (@init_after_target_checks _ _ _ _ _ _ _ _ _ _ H1 H2 H3 H4).
  destruct (check_known_cov ds target w tlast) as [[]|e|] eqn:E; simpl.
  - split; [|discriminate]. intros H. exfalso.
    apply bind_raise in H. destruct H as [H|(u & _ & H)].
    + apply check_observed_cov_raises in H. destruct H; discriminate.
    + apply bind_raise in H. destruct H as [H|(l & _ & H)]; [|discriminate].
      apply _build_samples_raises in H. destruct H as [H|[H|H]]; discriminate.
  - split; congruence.
  - split; discriminate.
Qed.

(** X14: a known covariate that reaches the end of the target and has no
    row for the last target timestamp (the two series are out of step)
    makes the construction of a window that reaches past the target raise
    [KeyError], an error that is not a validation error. *)
Theorem known_cov_out_of_step_is_key_error :
  forall rawdataset in_chunk_len out_chunk_len skip_chunk_len sampling_stride
         time_window ds target w tlast known klast,
    check_arguments rawdataset in_chunk_len out_chunk_len skip_chunk_len
      sampling_stride = Ok (ds, target) ->
    resolve_time_window in_chunk_len out_chunk_len skip_chunk_len time_window
      target = Ok w ->
    check_window_bounds in_chunk_len out_chunk_len skip_chunk_len target w
      = Ok tt ->
    check_target_length in_chunk_len out_chunk_len skip_chunk_len target w
      = Ok tlast ->
    get_known_cov ds = Some known ->
    snd w > Py.len (time_index target) - 1 ->
    last_timestamp (time_index known) = Some klast ->
    tlast <= klast ->
    position_of (time_index known) tlast = None ->
    __init__ rawdataset in_chunk_len out_chunk_len skip_chunk_len
      sampling_stride time_window = Raise KeyError.
Proof.
  intros rd i o s st tw ds target w tlast known klast H1 H2 H3 H4 Hk Hw Hlast
    Hle Hpos.
  rewrite (@init_after_target_checks _ _ _ _ _ _ _ _ _ _ H1 H2 H3 H4).
  unfold check_known_cov. rewrite Hk, Z.gtb_ltb.
  destruct (Z.ltb_spec (Py.len (time_index target) - 1) (snd w)); [|lia].
  unfold index_or_raise. rewrite last_timestamp_getitem, Hlast. simpl.
  apply Z.ltb_ge in Hle. rewrite Hle. simpl.
  unfold position_of in Hpos. unfold get_loc.
  destruct (find_pos (time_index known) tlast); [discriminate|reflexivity].
Qed.

(** X15: a covariate without a row makes the construction raise
    [IndexError] once the checks of the arguments, of the window and of the
    target length have passed: the known covariate in its own check, the
    observed covariate in its own when the check of the known covariate
    passes. *)
Theorem covariate_without_rows_is_index_error :
  forall rawdataset in_chunk_len out_chunk_len skip_chunk_len sampling_stride
         time_window ds target w tlast,
    check_arguments rawdataset in_chunk_len out_chunk_len skip_chunk_len
      sampling_stride = Ok (ds, target) ->
    resolve_time_window in_chunk_len out_chunk_len skip_chunk_len time_window
      target = Ok w ->
    check_window_bounds in_chunk_len out_chunk_len skip_chunk_len target w
      = Ok tt ->
    check_target_length in_chunk_len out_chunk_len skip_chunk_len target w
      = Ok tlast ->
    let init :=
      __init__ rawdataset in_chunk_len out_chunk_len skip_chunk_len
        sampling_stride time_window in
    (forall known,
       get_known_cov ds = Some known -> data known = [] ->
       init = Raise IndexError) /\
    (forall observed,
       check_known_cov ds target w tlast = Ok tt ->
       get_observed_cov ds = Some observed -> data observed = [] ->
       init = Raise IndexError).
Proof.
  intros rd i o s st tw ds target w tlast H1 H2 H3 H4 init.
  unfold init. rewrite (@init_after_target_checks _ _ _ _ _ _ _ _ _ _ H1 H2 H3 H4). split.
  - intros known Hk Hempty.
    assert (Hti : time_index known = [])
      by (unfold time_index; now rewrite Hempty).
    unfold check_known_cov. rewrite Hk, Hti.
    destruct (snd w >? Py.len (time_index target) - 1); [reflexivity|].
    destruct (index_or_raise (time_index target) (snd w)) as [ts|e|] eqn:E;
      simpl.
    + reflexivity.
    + unfold index_or_raise in E.
      destruct (Py.getitem (time_index target) (snd w)); [discriminate|].
      congruence.
    + exfalso. revert E. apply terminates_index_or_raise.
  - intros observed Hknown Hobs Hempty. rewrite Hknown. simpl.
    assert (Hti : time_index observed = [])
      by (unfold time_index; now rewrite Hempty).
    unfold check_observed_cov. rewrite Hobs, Hti.
    destruct (snd w >? Py.len (time_index target) - 1); [reflexivity|].
    destruct (index_or_raise (time_index target) (snd w - s - o))
      as [ts|e|] eqn:E; simpl.
    + reflexivity.
    + unfold index_or_raise in E.
      destruct (Py.getitem (time_index target) (snd w - s - o));
        [discriminate|].
      congruence.
    + exfalso. revert E. apply terminates_index_or_raise.
Qed.

(** ** The checks and the loop *)

Lemma find_pos_of_nth index : forall p ts,
  nth_error index p = Some ts -> exists q, find_pos index ts = Some q.
Proof.
  induction index as [|x index IH]; intros p ts H.
  - destruct p; discriminate.
  - simpl. destruct (Z.eqb_spec x ts); [eauto|].
    destruct p as [|p]; simpl in H; [congruence|].
    destruct (IH _ _ H) as [q ->]. eauto.
Qed.

Lemma last_timestamp_nth index last :
  last_timestamp index = Some last ->
  (0 < length index)%nat /\ nth_error index (length index - 1) = Some last.
Proof.
  intros H. rewrite <- last_timestamp_getitem_len in H.
  destruct index as [|x index]; [discriminate|].
  assert (Hlen : Py.len (x :: index) = Z.of_nat (length index) + 1)
    by (unfold Py.len; cbn [length]; lia).
  rewrite getitem_nonneg in H by lia. rewrite Hlen in H.
  replace (Z.to_nat (Z.of_nat (length index) + 1 - 1)) with (length index)
    in H by lia.
  cbn [length]. replace (S (length index) - 1)%nat with (length index) by lia.
  split; [lia|exact H].
Qed.

(** A covariate that shares the rows of the target and ends at or after a
    target timestamp has a row for it. *)
Lemma shared_rows_cover target_index cov_index p ts last :
  strictly_increasing target_index = true ->
  strictly_increasing cov_index = true ->
  rows_agree target_index cov_index = true ->
  nth_error target_index p = Some ts ->
  last_timestamp cov_index = Some last ->
  ts <= last ->
  exists q, get_loc cov_index ts = Ok q.
Proof.
  intros It Ic Hagree Hp Hlast Hle.
  apply last_timestamp_nth in Hlast. destruct Hlast as [Hne Hlast].
  assert (Hcov : exists y, nth_error cov_index p = Some y).
  { destruct (nth_error cov_index p) as [y|] eqn:Ey; [eauto|].
    apply nth_error_None in Ey.
    assert (Hlt : (length cov_index - 1 < p)%nat) by lia.
    assert (Hp' : (p < length target_index)%nat)
      by (apply nth_error_Some; congruence).
    destruct (nth_error target_index (length cov_index - 1)) as [x|] eqn:Ex.
    - assert (x = last) by (eapply rows_agree_nth; eassumption). subst x.
      pose proof (@strictly_increasing_nth target_index _ _ _ _ It Hlt Ex Hp).
      lia.
    - apply nth_error_None in Ex. lia. }
  destruct Hcov as [y Hy].
  assert (ts = y) by (eapply rows_agree_nth; eassumption). subst y.
  destruct (find_pos_of_nth _ _ Hy) as [q Hq].
  exists (Z.of_nat q). unfold get_loc. now rewrite Hq.
Qed.

Lemma strictly_increasing_le index p q x y :
  strictly_increasing index = true ->
  (p <= q)%nat ->
  nth_error index p = Some x -> nth_error index q = Some y -> x <= y.
Proof.
  intros H Hpq Hp Hq.
  destruct (Nat.eq_dec p q) as [->|Hne]; [assert (x = y) by congruence; lia|].
  assert (Hlt : (p < q)%nat) by lia.
  pose proof (@strictly_increasing_nth index p q x y H Hlt Hp Hq). lia.
Qed.

Lemma check_known_cov_ok ds target known w tlast :
  get_known_cov ds = Some known ->
  check_known_cov ds target w tlast = Ok tt ->
  exists klast,
    last_timestamp (time_index known) = Some klast /\
    (snd w > Py.len (time_index target) - 1 ->
     tlast <= klast /\
     exists idx, get_loc (time_index known) tlast = Ok idx) /\
    (snd w <= Py.len (time_index target) - 1 ->
     exists ts,
       Py.getitem (time_index target) (snd w) = Some ts /\ ts <= klast).
Proof.
  intros Hk H. unfold check_known_cov in H. rewrite Hk, Z.gtb_ltb in H.
  destruct (Z.ltb_spec (Py.len (time_index target) - 1) (snd w)).
  - apply bind_ok in H. destruct H as (klast & Hkl & H).
    apply bind_ok in H. destruct H as (u & Hearly & H).
    apply bind_ok in H. destruct H as (idx & Hidx & _).
    apply index_or_raise_ok in Hkl. rewrite last_timestamp_getitem in Hkl.
    apply raise_if_ok, Z.ltb_ge in Hearly.
    exists klast. split; [assumption|]. split; [|lia]. eauto.
  - apply bind_ok in H. destruct H as (ts & Hts & H).
    apply bind_ok in H. destruct H as (klast & Hkl & Hearly).
    apply index_or_raise_ok in Hts, Hkl.
    rewrite last_timestamp_getitem in Hkl.
    apply raise_if_ok, Z.ltb_ge in Hearly.
    exists klast. split; [assumption|]. split; [lia|]. eauto.
Qed.

Lemma check_observed_cov_ok out_len skip_len ds target observed w tlast :
  get_observed_cov ds = Some observed ->
  check_observed_cov out_len skip_len ds target w tlast = Ok tt ->
  exists olast,
    last_timestamp (time_index observed) = Some olast /\
    (snd w > Py.len (time_index target) - 1 -> tlast <= olast) /\
    (snd w <= Py.len (time_index target) - 1 ->
     exists ts,
       Py.getitem (time_index target) (snd w - skip_len - out_len) = Some ts /\
       ts <= olast).
Proof.
  intros Ho H. unfold check_observed_cov in H. rewrite Ho, Z.gtb_ltb in H.
  destruct (Z.ltb_spec (Py.len (time_index target) - 1) (snd w)).
  - apply bind_ok in H. destruct H as (olast & Hol & Hearly).
    apply index_or_raise_ok in Hol. rewrite last_timestamp_getitem in Hol.
    apply raise_if_ok, Z.ltb_ge in Hearly.
    exists olast. split; [assumption|]. split; [auto|lia].
  - apply bind_ok in H. destruct H as (ts & Hts & H).
    apply bind_ok in H. destruct H as (olast & Hol & Hearly).
    apply index_or_raise_ok in Hts, Hol.
    rewrite last_timestamp_getitem in Hol.
    apply raise_if_ok, Z.ltb_ge in Hearly.
    exists olast. split; [assumption|]. split; [lia|]. eauto.
Qed.

Lemma build_loop_of_samples (self : MLDataset cell) target :
  0 < _sampling_stride self ->
  forall fuel t,
    (Z.to_nat (snd (_time_window self) - t + 1) <= fuel)%nat ->
    (forall t', t <= t' <= snd (_time_window self) ->
                exists sample, build_sample self target t' = Ok sample) ->
    exists built, build_loop self target fuel t = Ok built.
Proof.
  intros Hs. induction fuel as [|fuel IH]; intros t Hf Hall; simpl.
  - destruct (Z.leb_spec t (snd (_time_window self))); [lia|eauto].
  - destruct (Z.leb_spec t (snd (_time_window self))); [|eauto].
    destruct (Hall t) as [sample ->]; [lia|].
    destruct (IH (t + _sampling_stride self)) as [rest ->]; [lia| |].
    + intros t' Ht'. apply Hall. lia.
    + simpl. eauto.
Qed.

(** X16: the checks of [__init__] are enough for the loop when the
    covariates share the rows of the target (strictly increasing time
    indexes, the same timestamp in every common row): if every check
    passes, no slice or timestamp lookup of [_build_samples] raises, and the
    dataset is constructed. *)
Theorem checks_suffice_when_rows_are_shared :
  forall rawdataset in_chunk_len out_chunk_len skip_chunk_len sampling_stride
         time_window ds target w tlast,
    validate_before_observed_cov rawdataset in_chunk_len out_chunk_len
      skip_chunk_len sampling_stride time_window = Ok (ds, target, w, tlast) ->
    check_observed_cov out_chunk_len skip_chunk_len ds target w tlast = Ok tt ->
    strictly_increasing (time_index target) = true ->
    (forall known,
       get_known_cov ds = Some known ->
       strictly_increasing (time_index known) = true /\
       rows_agree (time_index target) (time_index known) = true) ->
    (forall observed,
       get_observed_cov ds = Some observed ->
       strictly_increasing (time_index observed) = true /\
       rows_agree (time_index target) (time_index observed) = true) ->
    exists d,
      __init__ rawdataset in_chunk_len out_chunk_len skip_chunk_len
        sampling_stride time_window = Ok d /\
      _time_window d = w.
Proof.
  intros rd i o s st tw ds target w tlast Hv Hobs It Hknown Hobserved.
  pose proof Hv as Hv'. apply validate_ok in Hv'.
  destruct Hv' as (Hargs & Hres & Hbounds & Htl & Hkc).
  apply check_arguments_ok in Hargs.
  destruct Hargs as (_ & Ht & Hlen & Hi & Hs & Ho & Hst).
  apply check_window_bounds_ok in Hbounds.
  unfold max_allowed_window, _compute_min_allowed_window in Hbounds.
  rewrite <- len_time_index in Hbounds. destruct Hbounds as [Hlo Hup].
  apply check_target_length_ok in Htl. destruct Htl as [Hlast _].
  destruct (last_timestamp_nth _ Hlast) as [_ Hlast_nth].
  set (self := self_before_build i o s st ds w).
  assert (Hall : forall t, fst w <= t <= snd w ->
                           exists sample, build_sample self target t = Ok sample).
  { intros t Ht_range.
    assert (Hbelow : forall p ts,
              0 <= p <= Py.len (time_index target) - 1 ->
              Py.getitem (time_index target) p = Some ts -> ts <= tlast).
    { intros p ts Hp Hts. apply nth_error_of_getitem in Hts; [|lia].
      apply (@strictly_increasing_le (time_index target) (Z.to_nat p)
               (length (time_index target) - 1) ts tlast It);
        [unfold Py.len in *; lia|assumption|assumption]. }
    assert (Hordered : forall p q x y,
              0 <= p <= q ->
              Py.getitem (time_index target) p = Some x ->
              Py.getitem (time_index target) q = Some y -> x <= y).
    { intros p q x y Hpq Hx Hy.
      apply nth_error_of_getitem in Hx; [|lia].
      apply nth_error_of_getitem in Hy; [|lia].
      apply (@strictly_increasing_le (time_index target) (Z.to_nat p)
               (Z.to_nat q) x y It); [lia|assumption|assumption]. }
    assert (K : exists k, build_known_cov self target t = Ok k).
    { unfold build_known_cov. simpl.
      destruct (get_known_cov ds) as [known|] eqn:Hk; [|eauto].
      destruct (Hknown known eq_refl) as [Ik Ak].
      destruct (@check_known_cov_ok ds target known w tlast Hk Hkc)
        as (klast & Hkl & Hpast & Hin).
      rewrite Z.gtb_ltb.
      destruct (Z.ltb_spec (Py.len (time_index target) - 1) t) as [Hgt|Hle].
      - destruct Hpast as [_ [idx Hidx]]; [lia|].
        unfold index_or_raise. rewrite last_timestamp_getitem, Hlast. simpl.
        rewrite Hidx. simpl. eauto.
      - destruct (@getitem_in_range _ (time_index target) t) as [ts Hts];
          [lia|].
        unfold index_or_raise. rewrite Hts. simpl.
        assert (Hcover : ts <= klast).
        { destruct (Z_lt_le_dec (Py.len (time_index target) - 1) (snd w))
            as [Hreg|Hreg].
          - destruct Hpast as [Hge _]; [lia|].
            specialize (Hbelow t ts ltac:(lia) Hts). lia.
          - destruct Hin as (tu & Htu & Hge); [lia|].
            specialize (Hordered t (snd w) ts tu ltac:(lia) Hts Htu). lia. }
        pose proof Hts as Hnth. apply nth_error_of_getitem in Hnth; [|lia].
        destruct (shared_rows_cover _ _ _ It Ik Ak Hnth Hkl Hcover)
          as [q Hq].
        rewrite Hq. simpl. eauto. }
    assert (O : exists ob, build_observed_cov self target (t - o - s) = Ok ob).
    { unfold build_observed_cov. simpl.
      destruct (get_observed_cov ds) as [observed|] eqn:Hob; [|eauto].
      destruct (Hobserved observed eq_refl) as [Io Ao].
      destruct (@check_observed_cov_ok o s ds target observed w tlast Hob Hobs)
        as (olast & Hol & Hpast & Hin).
      destruct (@getitem_in_range _ (time_index target) (t - o - s))
        as [ts Hts]; [lia|].
      unfold index_or_raise. rewrite Hts. simpl.
      assert (Hcover : ts <= olast).
      { destruct (Z_lt_le_dec (Py.len (time_index target) - 1) (snd w))
          as [Hreg|Hreg].
        - specialize (Hpast ltac:(lia)).
          specialize (Hbelow (t - o - s) ts ltac:(lia) Hts). lia.
        - destruct Hin as (tu & Htu & Hge); [lia|].
          specialize (Hordered (t - o - s) (snd w - s - o) ts tu
                        ltac:(lia) Hts Htu). lia. }
      pose proof Hts as Hnth. apply nth_error_of_getitem in Hnth; [|lia].
      destruct (shared_rows_cover _ _ _ It Io Ao Hnth Hol Hcover) as [q Hq].
      rewrite Hq. simpl. eauto. }
    destruct K as [k Hk]. destruct O as [ob Hob].
    unfold build_sample. cbv zeta.
    change (_target_out_chunk_len self) with o.
    change (_target_skip_chunk_len self) with s.
    rewrite Hk. simpl. rewrite Hob. simpl. eauto. }
  destruct (@build_loop_of_samples self target Hst
              (Z.to_nat (snd w - fst w + 1)) (fst w))
    as [built Hbuilt]; [simpl; lia|exact Hall|].
  exists (set_samples self built). split; [|reflexivity].
  apply init_ok. exists ds, target, w, tlast, built.
  split; [exact Hv|]. split; [exact Hobs|]. split; [|reflexivity].
  unfold _build_samples. fold self.
  change (_rawdataset self) with ds. rewrite Ht.
  change (_time_window self) with w. destruct w as [lower upper]. exact Hbuilt.
Qed.

End Further.

(** * The further properties on the examples *)

Import EdgeCases.

Lemma while_loop_ends_witness :
  let self := self_before_build 2 2 1 1 dataset8 (4, 7) in
  0 < _sampling_stride self /\
  (build_loop self target8 (Z.to_nat (snd (_time_window self) - 4 + 1)) 4
     <> OutOfFuel /\
   build_loop self target8
     (Z.to_nat (snd (_time_window self) - 4 + 1) + 3) 4
     = build_loop self target8
         (Z.to_nat (snd (_time_window self) - 4 + 1)) 4).
Proof.
  intros self.
  refine (conj _ (@while_loop_ends Z self target8 4 3%nat _));
    vm_compute; reflexivity.
Defined.

Lemma loop_needs_positive_stride_witness :
  let self := self_before_build 2 2 1 0 target_only8 (4, 7) in
  _sampling_stride self <= 0 /\
  4 <= snd (_time_window self) /\
  build_loop self target8 5 4 <> Ok [].
Proof.
  intros self.
  refine (conj _ (conj _
    (@loop_needs_positive_stride Z self target8 _ 5%nat 4 [] _)));
    vm_compute; discriminate.
Defined.

Lemma sample_depends_on_tail_only_witness :
  exists d1 d2 sample1 sample2,
    __init__ (Some dataset8) 2 2 1 1 (Some (4, 7)) = Ok d1 /\
    __init__ (Some dataset8) 2 2 1 2 (Some (4, 7)) = Ok d2 /\
    nth_error (samples d1) 2 = Some sample1 /\
    nth_error (samples d2) 1 = Some sample2 /\
    fst (_time_window d1) + Z.of_nat 2 * 1
      = fst (_time_window d2) + Z.of_nat 1 * 2 /\
    sample1 = sample2.
Proof.
  do 4 eexists.
  split; [vm_compute; reflexivity|].
  split; [vm_compute; reflexivity|].
  split; [vm_compute; reflexivity|].
  split; [vm_compute; reflexivity|].
  split; [vm_compute; reflexivity|].
  eapply (@sample_depends_on_tail_only Z (Some dataset8) 2 2 1 1 2
           (Some (4, 7)) (Some (4, 7)) _ _ 2%nat 1%nat);
    vm_compute; reflexivity.
Defined.

Lemma known_cov_is_fixed_past_target_witness :
  exists d sample1 sample2,
    __init__ (Some dataset_known11) 2 2 1 1 (Some (8, 10)) = Ok d /\
    get_target (_rawdataset d) = Some target8 /\
    nth_error (samples d) 0 = Some sample1 /\
    nth_error (samples d) 2 = Some sample2 /\
    fst (_time_window d) + Z.of_nat 0 * 1 > Py.len (time_index target8) - 1 /\
    fst (_time_window d) + Z.of_nat 2 * 1 > Py.len (time_index target8) - 1 /\
    known_cov sample1 = known_cov sample2.
Proof.
  do 3 eexists.
  split; [vm_compute; reflexivity|].
  split; [vm_compute; reflexivity|].
  split; [vm_compute; reflexivity|].
  split; [vm_compute; reflexivity|].
  split; [vm_compute; reflexivity|].
  split; [vm_compute; reflexivity|].
  eapply (@known_cov_is_fixed_past_target Z (Some dataset_known11) 2 2 1 1
           (Some (8, 10)) _ target8 0%nat 2%nat);
    vm_compute; reflexivity.
Defined.

Lemma target_chunks_are_rows_witness :
  exists d sample,
    __init__ (Some dataset8) 2 2 1 1 (Some (4, 7)) = Ok d /\
    get_target (_rawdataset d) = Some target8 /\
    nth_error (samples d) 1 = Some sample /\
    ((fst (_time_window d) + Z.of_nat 1 * 1 <= Py.len (time_index target8) - 1 ->
      rows_between (to_numpy target8)
        (fst (_time_window d) + Z.of_nat 1 * 1 - 2 + 1)
        (fst (_time_window d) + Z.of_nat 1 * 1)
        = Some (future_target sample)) /\
     (2 <> 0 ->
      rows_between (to_numpy target8)
        (fst (_time_window d) + Z.of_nat 1 * 1 - 2 - 1 - 2 + 1)
        (fst (_time_window d) + Z.of_nat 1 * 1 - 2 - 1)
        = Some (past_target sample))).
Proof.
  do 2 eexists.
  split; [vm_compute; reflexivity|].
  split; [vm_compute; reflexivity|].
  split; [vm_compute; reflexivity|].
  eapply (@target_chunks_are_rows Z (Some dataset8) 2 2 1 1 (Some (4, 7)));
    vm_compute; reflexivity.
Defined.

Lemma observed_cov_chunk_of_shared_rows_witness :
  exists d sample,
    __init__ (Some dataset8) 2 2 1 1 (Some (4, 7)) = Ok d /\
    get_target (_rawdataset d) = Some target8 /\
    get_observed_cov (_rawdataset d) = Some observed8 /\
    strictly_increasing (time_index target8) = true /\
    strictly_increasing (time_index observed8) = true /\
    rows_agree (time_index target8) (time_index observed8) = true /\
    nth_error (samples d) 1 = Some sample /\
    (rows_between (to_numpy observed8)
       (fst (_time_window d) + Z.of_nat 1 * 1 - 2 - 1 - Z.max 1 2 + 1)
       (fst (_time_window d) + Z.of_nat 1 * 1 - 2 - 1)
       = Some (observed_cov sample) /\
     Py.len (observed_cov sample) = Z.max 1 2).
Proof.
  do 2 eexists.
  split; [vm_compute; reflexivity|].
  split; [vm_compute; reflexivity|].
  split; [vm_compute; reflexivity|].
  split; [vm_compute; reflexivity|].
  split; [vm_compute; reflexivity|].
  split; [vm_compute; reflexivity|].
  split; [vm_compute; reflexivity|].
  eapply (@observed_cov_chunk_of_shared_rows Z (Some dataset8) 2 2 1 1
           (Some (4, 7)) _ target8 observed8 1%nat);
    vm_compute; reflexivity.
Defined.

Lemma known_cov_chunk_of_shared_rows_witness :
  exists d sample,
    __init__ (Some dataset_known11) 2 2 1 1 (Some (8, 10)) = Ok d /\
    get_target (_rawdataset d) = Some target8 /\
    get_known_cov (_rawdataset d) = Some known11 /\
    strictly_increasing (time_index target8) = true /\
    strictly_increasing (time_index known11) = true /\
    rows_agree (time_index target8) (time_index known11) = true /\
    (snd (_time_window d) <= Py.len (time_index target8) - 1 \/
     snd (_time_window d) = Py.len (time_index target8) - 1 + 1 + 2) /\
    nth_error (samples d) 2 = Some sample /\
    exists left right,
      rows_between (to_numpy known11)
        ((if fst (_time_window d) + Z.of_nat 2 * 1
               <=? Py.len (time_index target8) - 1
          then fst (_time_window d) + Z.of_nat 2 * 1
          else Py.len (time_index target8) - 1 + 1 + 2) - 2 - 1 - 2 + 1)
        ((if fst (_time_window d) + Z.of_nat 2 * 1
               <=? Py.len (time_index target8) - 1
          then fst (_time_window d) + Z.of_nat 2 * 1
          else Py.len (time_index target8) - 1 + 1 + 2) - 2 - 1)
        = Some left /\
      rows_between (to_numpy known11)
        ((if fst (_time_window d) + Z.of_nat 2 * 1
               <=? Py.len (time_index target8) - 1
          then fst (_time_window d) + Z.of_nat 2 * 1
          else Py.len (time_index target8) - 1 + 1 + 2) - 2 + 1)
        (if fst (_time_window d) + Z.of_nat 2 * 1
              <=? Py.len (time_index target8) - 1
         then fst (_time_window d) + Z.of_nat 2 * 1
         else Py.len (time_index target8) - 1 + 1 + 2)
        = Some right /\
      known_cov sample = left ++ right /\
      Py.len (known_cov sample) = 2 + 2.
Proof.
  do 2 eexists.
  split; [vm_compute; reflexivity|].
  split; [vm_compute; reflexivity|].
  split; [vm_compute; reflexivity|].
  split; [vm_compute; reflexivity|].
  split; [vm_compute; reflexivity|].
  split; [vm_compute; reflexivity|].
  split; [right; vm_compute; reflexivity|].
  split; [vm_compute; reflexivity|].
  eapply (@known_cov_chunk_of_shared_rows Z (Some dataset_known11) 2 2 1 1
           (Some (8, 10)) _ target8 known11 2%nat);
    try (vm_compute; reflexivity).
  right. vm_compute. reflexivity.
Defined.

Lemma target_only_default_window_builds_witness :
  get_target target_only8 = Some target8 /\
  get_known_cov target_only8 = None /\
  get_observed_cov target_only8 = None /\
  0 <= 2 /\ 0 <= 1 /\ 0 < 2 /\ 0 < 2 /\
  Z.max 1 2 + 1 + 2 <= Py.len (time_index target8) /\
  exists d,
    __init__ (Some target_only8) 2 2 1 2 None = Ok d /\
    __len__ d = (Py.len (time_index target8) - (Z.max 1 2 + 1 + 2)) / 2 + 1.
Proof.
  do 8 (split; [vm_compute; (reflexivity || discriminate)|]).
  eapply (@target_only_default_window_builds Z target_only8 target8 2 2 1 2);
    vm_compute; (reflexivity || discriminate).
Defined.

Lemma target_only_raises_validation_errors_only_witness :
  get_known_cov target_only8 = None /\
  get_observed_cov target_only8 = None /\
  ((exists d,
      __init__ (Some target_only8) 2 2 1 1 (Some (3, 11)) = Ok d) \/
   (exists v,
      __init__ (Some target_only8) 2 2 1 1 (Some (3, 11))
        = Raise (ValidationError v))).
Proof.
  do 2 (split; [vm_compute; (reflexivity || discriminate)|]).
  eapply (@target_only_raises_validation_errors_only Z target_only8 2 2 1
            1 (Some (3, 11)));
    vm_compute; (reflexivity || discriminate).
Defined.

Lemma target_length_follows_from_window_bounds_witness :
  2 <= 2 /\
  __init__ (Some dataset1) 2 1 0 1 (Some (2, 2))
    <> Raise (ValidationError TargetTooShortError).
Proof.
  do 1 (split; [vm_compute; (reflexivity || discriminate)|]).
  eapply (@target_length_follows_from_window_bounds Z (Some dataset1) 2 1
            0 1 2 2);
    vm_compute; (reflexivity || discriminate).
Defined.

Lemma default_window_needs_room_for_one_sample_witness :
  get_target dataset1 = Some target1 /\
  1 <= Py.len (time_index target1) /\
  0 <= 2 /\ 0 <= 0 /\ 0 < 1 /\ 0 < 1 /\
  (__init__ (Some dataset1) 2 1 0 1 None
     = Raise (ValidationError TargetTooShortError) <->
   Py.len (time_index target1) < Z.max 1 2 + 0 + 1).
Proof.
  do 6 (split; [vm_compute; (reflexivity || discriminate)|]).
  eapply (@default_window_needs_room_for_one_sample Z dataset1 target1 2 1 0 1);
    vm_compute; (reflexivity || discriminate).
Defined.

Lemma default_window_is_never_empty_witness :
  exists d,
    __init__ (Some dataset8) 2 2 1 3 None = Ok d /\
    exists target,
      get_target (_rawdataset d) = Some target /\
      __len__ d = (Py.len (time_index target) - (Z.max 1 2 + 1 + 2)) / 3 + 1 /\
      1 <= __len__ d.
Proof.
  eexists. split; [vm_compute; reflexivity|].
  eapply (@default_window_is_never_empty Z (Some dataset8) 2 2 1 3).
  vm_compute. reflexivity.
Defined.

Lemma known_cov_end_validation_witness :
  check_arguments (Some dataset_known7) 2 2 1 1 = Ok (dataset_known7, target8) /\
  resolve_time_window 2 2 1 (Some (4, 7)) target8 = Ok (4, 7) /\
  check_window_bounds 2 2 1 target8 (4, 7) = Ok tt /\
  check_target_length 2 2 1 target8 (4, 7) = Ok 7 /\
  get_known_cov dataset_known7 = Some known7 /\
  (__init__ (Some dataset_known7) 2 2 1 1 (Some (4, 7))
     = Raise (ValidationError KnownCovTimestampTooEarlyError) <->
   known_cov_too_early target8 known7 (snd (4, 7))).
Proof.
  do 5 (split; [vm_compute; (reflexivity || discriminate)|]).
  eapply (@known_cov_end_validation Z (Some dataset_known7) 2 2 1 1 (Some
            (4, 7)) dataset_known7 target8 (4, 7) 7 known7);
    vm_compute; (reflexivity || discriminate).
Defined.

Lemma known_cov_out_of_step_is_key_error_witness :
  check_arguments (Some dataset_out_of_step) 1 2 0 1
    = Ok (dataset_out_of_step, target3) /\
  resolve_time_window 1 2 0 (Some (4, 4)) target3 = Ok (4, 4) /\
  check_window_bounds 1 2 0 target3 (4, 4) = Ok tt /\
  check_target_length 1 2 0 target3 (4, 4) = Ok 10 /\
  get_known_cov dataset_out_of_step = Some known_out_of_step /\
  snd (4, 4) > Py.len (time_index target3) - 1 /\
  last_timestamp (time_index known_out_of_step) = Some 13 /\
  10 <= 13 /\
  position_of (time_index known_out_of_step) 10 = None /\
  __init__ (Some dataset_out_of_step) 1 2 0 1 (Some (4, 4)) = Raise KeyError.
Proof.
  do 9 (split; [vm_compute; (reflexivity || discriminate)|]).
  eapply (@known_cov_out_of_step_is_key_error Z (Some dataset_out_of_step)
            1 2 0 1 (Some (4, 4)) dataset_out_of_step target3 (4, 4) 10
            known_out_of_step 13);
    vm_compute; (reflexivity || discriminate).
Defined.

Lemma covariate_without_rows_is_index_error_witness :
  check_arguments (Some dataset_empty_known) 2 2 1 1
    = Ok (dataset_empty_known, target8) /\
  resolve_time_window 2 2 1 (Some (4, 7)) target8 = Ok (4, 7) /\
  check_window_bounds 2 2 1 target8 (4, 7) = Ok tt /\
  check_target_length 2 2 1 target8 (4, 7) = Ok 7 /\
  ((forall known,
      get_known_cov dataset_empty_known = Some known -> data known = [] ->
      __init__ (Some dataset_empty_known) 2 2 1 1 (Some (4, 7))
        = Raise IndexError) /\
   (forall observed,
      check_known_cov dataset_empty_known target8 (4, 7) 7 = Ok tt ->
      get_observed_cov dataset_empty_known = Some observed ->
      data observed = [] ->
      __init__ (Some dataset_empty_known) 2 2 1 1 (Some (4, 7))
        = Raise IndexError)).
Proof.
  do 4 (split; [vm_compute; (reflexivity || discriminate)|]).
  eapply (@covariate_without_rows_is_index_error Z (Some
            dataset_empty_known) 2 2 1 1 (Some (4, 7)) dataset_empty_known target8
            (4, 7) 7);
    vm_compute; (reflexivity || discriminate).
Defined.

Lemma checks_suffice_when_rows_are_shared_witness :
  validate_before_observed_cov (Some dataset_known11) 2 2 1 1 (Some (5, 10))
    = Ok (dataset_known11, target8, (5, 10), 7) /\
  check_observed_cov 2 1 dataset_known11 target8 (5, 10) 7 = Ok tt /\
  strictly_increasing (time_index target8) = true /\
  (forall known,
     get_known_cov dataset_known11 = Some known ->
     strictly_increasing (time_index known) = true /\
     rows_agree (time_index target8) (time_index known) = true) /\
  (forall observed,
     get_observed_cov dataset_known11 = Some observed ->
     strictly_increasing (time_index observed) = true /\
     rows_agree (time_index target8) (time_index observed) = true) /\
  exists d,
    __init__ (Some dataset_known11) 2 2 1 1 (Some (5, 10)) = Ok d /\
    _time_window d = (5, 10).
Proof.
  assert (Hk : forall known,
     get_known_cov dataset_known11 = Some known ->
     strictly_increasing (time_index known) = true /\
     rows_agree (time_index target8) (time_index known) = true)
    by (intros known [= <-]; split; vm_compute; reflexivity).
  assert (Ho : forall observed,
     get_observed_cov dataset_known11 = Some observed ->
     strictly_increasing (time_index observed) = true /\
     rows_agree (time_index target8) (time_index observed) = true)
    by (intros observed [= <-]; split; vm_compute; reflexivity).
  do 3 (split; [vm_compute; reflexivity|]).
  split; [exact Hk|]. split; [exact Ho|].
  eapply (@checks_suffice_when_rows_are_shared Z (Some dataset_known11) 2 2 1 1
            (Some (5, 10)) dataset_known11 target8 (5, 10) 7);
    first [exact Hk | exact Ho | vm_compute; reflexivity].
Defined.

(** * The known covariate of a window that reaches past the target *)

Section KnownCovPastTarget.
Variable cell : Type.
Implicit Types (ds : TSDataset cell) (target known : TimeSeries cell).





End KnownCovPastTarget.



(** C5 fails on the code, by the defect of C2.  With the target at
    8:00 .. 10:00, the known covariate at 7:00 .. 11:00,
    [in_chunk_len = 1], [skip_chunk_len = 0], [out_chunk_len = 2] and the
    window [(3, 3)], every check passes.  The tail 3 lies past the target,
    the last target timestamp has the row 3 in the covariate and
    [right_tail = 3 + 0 + 2 = 5]: the left part is the row 3, the right
    part would be the rows 4 .. 5, and the covariate has no row 5.  The
    sample holds the rows 3 and 4, not the rows the formula names. *)
Theorem known_cov_chunk_rows_are_missing :
  exists d sample,
    __init__ (Some dataset3) 1 2 0 1 (Some (3, 3)) = Ok d /\
    _samples d = [sample] /\
    fst (_time_window d) > Py.len (time_index target3) - 1 /\
    last_timestamp (time_index target3) = Some 10 /\
    position_of (time_index known5) 10 = Some 3 /\
    rows_between (to_numpy known5) (3 + 0 + 2 - 2 - 0 - 1 + 1) (3 + 0 + 2 - 2 - 0)
      = Some [[1000]] /\
    rows_between (to_numpy known5) (3 + 0 + 2 - 2 + 1) (3 + 0 + 2) = None /\
    known_cov sample = [[1000]; [1100]].
Proof.
  do 2 eexists. split; [vm_compute; reflexivity|].
  repeat split.
Qed.

(** The same defect where the covariate starts after the target: target
    at 0 .. 6, known covariate at 2 .. 8, [in_chunk_len = 1],
    [skip_chunk_len = 2], [out_chunk_len = 2], no window passed.  For the
    first sample (tail 4, row 2 of the covariate) the left part would be the
    row [-2]; the slice wraps and the sample starts with the row of
    timestamp 7. *)
Lemma known_cov_chunk_wraps_before_the_first_row :
  exists d sample rest,
    __init__ (Some dataset_known_late) 1 2 2 1 None = Ok d /\
    _samples d = sample :: rest /\
    fst (_time_window d) = 4 /\
    timestamp_at (time_index target7) 4 = Some 4 /\
    position_of (time_index known_late) 4 = Some 2 /\
    rows_between (to_numpy known_late) (2 - 2 - 2 - 1 + 1) (2 - 2 - 2) = None /\
    rows_between (to_numpy known_late) (2 - 2 + 1) 2 = Some [[300]; [400]] /\
    known_cov sample = [[700]; [300]; [400]].
Proof.
  do 3 eexists. split; [vm_compute; reflexivity|].
  repeat split.
Qed.
